(** * NLTRANS: nozzle and pipe-support load transfer to a vessel foundation

    A shallow embedding of the calculation core of the two program
    variants of the repository,

      - [NLTrans_V.0sm.py]  (module [NLTrans_V]), and
      - [DS_NLTrans_F.py]   (module [DS_NLTrans_F]),

    over the real numbers of the Standard Library.  Python floats are read
    as reals; [math.sqrt] and [/] keep their exceptions ([ValueError] on a
    negative argument, [ZeroDivisionError] on a zero divisor), threaded
    through a small error monad.  The running totals are written over an
    arbitrary carrier with a zero and an addition, so that the same
    definition can be read over the reals and over binary64 floats.

    The reals are exact where binary64 rounds: an equation between two
    different expressions proved here holds of the program up to rounding
    only, and [**] can overflow where the real square cannot.  Where a
    statement is meant of the program as it runs, it is an equation the
    code computes the same way on both sides, an inequality that rounding
    keeps, or a statement on exceptions within stated magnitudes; where
    exact arithmetic and binary64 part, a binary64 evaluation shows it. *)

From Stdlib Require Import Floats.
From Stdlib Require Import Reals Lra Lia List String Ascii Bool Permutation.
Import ListNotations.

Open Scope string_scope.
Open Scope list_scope.
Open Scope R_scope.

(** ** Python runtime fragment *)

Module Py.

(** The exceptions the modelled code can raise. *)
Inductive exn : Type :=
| ValueError          (* math.sqrt: "math domain error" *)
| ZeroDivisionError   (* float division by zero *)
| KeyError (key : string).

Inductive result (A : Type) : Type :=
| Ok (a : A)
| Raise (e : exn).
Arguments Ok {A} a.
Arguments Raise {A} e.

Definition bind {A B : Type} (m : result A) (k : A -> result B) : result B :=
  match m with
  | Ok a => k a
  | Raise e => Raise e
  end.

Definition raised {A : Type} (m : result A) : Prop :=
  match m with
  | Ok _ => False
  | Raise _ => True
  end.

(** [needle in hay] on Python strings. *)
Fixpoint str_in (needle hay : string) : bool :=
  String.prefix needle hay
  || match hay with
     | EmptyString => false
     | String _ rest => str_in needle rest
     end.

(** [math.radians]: multiplication by pi/180. *)
Definition radians (deg : R) : R := deg * (PI / 180).

(** [math.sqrt]: raises [ValueError] below zero. *)
Definition math_sqrt (x : R) : result R :=
  if Rlt_dec x 0 then Raise ValueError else Ok (sqrt x).

(** [a / b] on floats: raises [ZeroDivisionError] when [b] is zero. *)
Definition float_div (a b : R) : result R :=
  if Req_dec_T b 0 then Raise ZeroDivisionError else Ok (a / b).

End Py.

Import Py.

Notation "x <- m ;; k" := (bind m (fun x => k))
  (at level 61, m at next level, right associativity).

(** ** Input records

    The dictionaries built by [main] for each nozzle and pipe support.  The
    key [aspect_ratio] is read with [.get(..., 2.0)], so it is optional. *)

Record component : Type := mkComponent {
  location : string;
  offset : R;
  elevation : R;
  theta : R;
  aspect_ratio : option R
}.

Record nozzle : Type := mkNozzle {
  nz : component;
  nz_tag_no : string;
  nz_type : string;
  P : R;
  V1 : R;
  V2 : R;
  Vc : R;
  VL : R
}.

Record support : Type := mkSupport {
  sp : component;
  sp_tag_no : string;
  sp_type : string;
  Fv : R;
  Fh1 : R;
  Fh2 : R
}.

(** [component.get('aspect_ratio', 2.0)] *)
Definition get_aspect_ratio (c : component) : R :=
  match aspect_ratio c with
  | Some a => a
  | None => 2
  end.

Definition with_theta (t : R) (c : component) : component :=
  mkComponent (location c) (offset c) (elevation c) t (aspect_ratio c).

(** The six global load components, over a carrier [A]. *)
Record GlobalLoad (A : Type) : Type := mkLoad {
  Fx : A; Fy : A; Fz : A; Mx : A; My : A; Mz : A
}.
Arguments mkLoad {A}.
Arguments Fx {A}.
Arguments Fy {A}.
Arguments Fz {A}.
Arguments Mx {A}.
Arguments My {A}.
Arguments Mz {A}.

(** The options of the location select box. *)
Inductive HeadShape : Type := Hemispherical | Ellipsoidal.
Inductive HeadEnd : Type := Top | Bottom.

Definition head_location (s : HeadShape) (e : HeadEnd) : string :=
  match s, e with
  | Hemispherical, Top => "Hemispherical Top Head"
  | Hemispherical, Bottom => "Hemispherical Bottom Head"
  | Ellipsoidal, Top => "Ellipsoidal Top Head"
  | Ellipsoidal, Bottom => "Ellipsoidal Bottom Head"
  end.

Definition head_type_name (s : HeadShape) : string :=
  match s with
  | Hemispherical => "Hemispherical"
  | Ellipsoidal => "Ellipsoidal"
  end.

(** ** NLTrans_V.0sm.py *)

Module NLTrans_V.

Definition calculate_head_depth (head_type : string) (Rad aspect_ratio : R)
  : result R :=
  if str_in "Hemispherical" head_type then Ok Rad
  else if str_in "Ellipsoidal" head_type then float_div Rad aspect_ratio
  else Ok 0.

Definition calculate_position (c : component) (support_height Rad L : R)
  : result (R * R * R) :=
  let location := location c in
  let th := radians (theta c) in
  let offset := offset c in
  let X := offset * sin th in
  let Z := - offset * cos th in
  Y <- (if (location =? "Shell")%string then
          Ok (support_height + elevation c)
        else
          let head_type :=
            if str_in "Hemispherical" location
            then "Hemispherical" else "Ellipsoidal" in
          let aspect_ratio := get_aspect_ratio c in
          head_depth <- calculate_head_depth head_type Rad aspect_ratio ;;
          if str_in "Top" location then
            let base_elevation := support_height + L in
            if Req_dec_T offset 0 then
              Ok (base_elevation + head_depth)
            else if str_in "Hemispherical" location then
              s <- math_sqrt (head_depth ^ 2 - offset ^ 2) ;;
              Ok (base_elevation + s)
            else
              q <- float_div (offset ^ 2) (Rad ^ 2) ;;
              s <- math_sqrt (1 - q) ;;
              Ok (base_elevation + head_depth * s)
          else
            let base_elevation := support_height in
            if Req_dec_T offset 0 then
              Ok (base_elevation - head_depth)
            else if str_in "Hemispherical" location then
              s <- math_sqrt (head_depth ^ 2 - offset ^ 2) ;;
              Ok (base_elevation - s)
            else
              q <- float_div (offset ^ 2) (Rad ^ 2) ;;
              s <- math_sqrt (1 - q) ;;
              Ok (base_elevation - head_depth * s)) ;;
  Ok (X, Y, Z).

Definition transform_nozzle_loads (n : nozzle) (support_height Rad L : R)
  : result (GlobalLoad R) :=
  p <- calculate_position (nz n) support_height Rad L ;;
  let '(X, Y, Z) := p in
  let th := radians (theta (nz n)) in
  let '(Fx, Fy, Fz) :=
    if str_in "Head" (location (nz n)) then
      if str_in "Top" (location (nz n)) then
        (V1 n * sin th + V2 n * cos th,
         P n,
         - V1 n * cos th + V2 n * sin th)
      else
        (- V1 n * sin th + V2 n * cos th,
         - P n,
         V1 n * cos th + V2 n * sin th)
    else
      (P n * sin th + Vc n * cos th,
       VL n,
       - P n * cos th + Vc n * sin th) in
  let Mx := Y * Fz - Z * Fy in
  let My := Z * Fx - X * Fz in
  let Mz := X * Fy - Y * Fx in
  Ok (mkLoad Fx Fy Fz Mx My Mz).

Definition transform_support_loads (s : support) (support_height Rad L : R)
  : result (GlobalLoad R) :=
  p <- calculate_position (sp s) support_height Rad L ;;
  let '(X, Y, Z) := p in
  let th := radians (theta (sp s)) in
  let Fx := Fh1 s * sin th + Fh2 s * cos th in
  let Fy := Fv s in
  let Fz := - Fh1 s * cos th + Fh2 s * sin th in
  let Mx := Y * Fz - Z * Fy in
  let My := Z * Fx - X * Fz in
  let Mz := X * Fy - Y * Fx in
  Ok (mkLoad Fx Fy Fz Mx My Mz).

(** *** The results table

    Each result is a dictionary with the keys ['Tag No.'], ['Type'] and the
    six load names.  [pd.DataFrame(rows)] takes its columns from the keys of
    the rows, so a frame built from the empty list has no column at all;
    [df[col]] raises [KeyError] for a column the frame does not have, and
    [Series.sum()] is the sum of the entries.  The sum is written as a fold
    from zero in row order: the exact sum over the reals, and the order in
    which numpy adds fewer than eight binary64 entries.  From eight entries
    on numpy adds in blocks, and a NaN entry is skipped; the fold follows
    neither, so nothing below relies on the binary64 value of a total of
    eight rows or more. *)

Section Table.

Context {A : Type} (zero : A) (add : A -> A -> A).

Record ResultRow : Type := mkRow {
  Tag_No : string;
  Type_ : string;
  row_load : GlobalLoad A
}.

Definition row_keys : list string :=
  ["Tag No."; "Type"; "Fx"; "Fy"; "Fz"; "Mx"; "My"; "Mz"].

Record DataFrame : Type := mkFrame {
  columns : list string;
  records : list ResultRow
}.

Definition pd_DataFrame (data : list ResultRow) : DataFrame :=
  mkFrame (match data with [] => [] | _ :: _ => row_keys end) data.

Inductive LoadColumn : Type := cFx | cFy | cFz | cMx | cMy | cMz.

Definition column_name (k : LoadColumn) : string :=
  match k with
  | cFx => "Fx" | cFy => "Fy" | cFz => "Fz"
  | cMx => "Mx" | cMy => "My" | cMz => "Mz"
  end.

Definition column_value (k : LoadColumn) (g : GlobalLoad A) : A :=
  match k with
  | cFx => Fx g | cFy => Fy g | cFz => Fz g
  | cMx => Mx g | cMy => My g | cMz => Mz g
  end.

(** [df[col]] for one of the six load columns. *)
Definition getitem (df : DataFrame) (k : LoadColumn) : result (list A) :=
  if existsb (String.eqb (column_name k)) (columns df)
  then Ok (map (fun r => column_value k (row_load r)) (records df))
  else Raise (KeyError (column_name k)).

(** [Series.sum()] *)
Definition series_sum (xs : list A) : A := fold_left add xs zero.

(** [df[col].sum()] *)
Definition column_sum (df : DataFrame) (k : LoadColumn) : result A :=
  xs <- getitem df k ;; Ok (series_sum xs).

(** Python truth value of the optional argument [support_results]. *)
Definition truthy (l : option (list ResultRow)) : bool :=
  match l with
  | Some (_ :: _) => true
  | _ => false
  end.

(** [display_results]: the table handed to [st.table], the rows followed by
    the ['TOTAL'] row (number formatting left out). *)
Definition display_results (nozzle_results : list ResultRow)
    (support_results : option (list ResultRow)) : result (list ResultRow) :=
  let all_results :=
    if truthy support_results
    then nozzle_results ++ match support_results with
                           | Some l => l
                           | None => []
                           end
    else nozzle_results in
  let df := pd_DataFrame all_results in
  tFx <- column_sum df cFx ;;
  tFy <- column_sum df cFy ;;
  tFz <- column_sum df cFz ;;
  tMx <- column_sum df cMx ;;
  tMy <- column_sum df cMy ;;
  tMz <- column_sum df cMz ;;
  let totals := mkRow "TOTAL" "" (mkLoad tFx tFy tFz tMx tMy tMz) in
  Ok (records df ++ [totals]).

End Table.

Arguments ResultRow A : clear implicits.
Arguments DataFrame A : clear implicits.

(** [for x in xs: out.append(f(x))], stopping at the first exception. *)
Fixpoint for_each {X Y : Type} (f : X -> result Y) (xs : list X)
  : result (list Y) :=
  match xs with
  | [] => Ok []
  | x :: rest =>
      y <- f x ;;
      ys <- for_each f rest ;;
      Ok (y :: ys)
  end.

(** The body of [main] under the "Calculate Foundation Loads" button. *)
Definition main_calculate (nozzles : list nozzle) (supports : list support)
    (support_height Rad L : R) : result (list (ResultRow R)) :=
  nozzle_results <-
    for_each (fun n =>
                r <- transform_nozzle_loads n support_height Rad L ;;
                Ok (mkRow (nz_tag_no n) (nz_type n) r)) nozzles ;;
  support_results <-
    for_each (fun s =>
                r <- transform_support_loads s support_height Rad L ;;
                Ok (mkRow (sp_tag_no s) (sp_type s) r)) supports ;;
  display_results 0 Rplus nozzle_results (Some support_results).

End NLTrans_V.

(** ** DS_NLTrans_F.py *)

Module DS_NLTrans_F.

Definition calculate_head_depth (head_type : string) (Rad aspect_ratio : R)
  : result R :=
  if str_in "Hemispherical" head_type then Ok Rad
  else if str_in "Ellipsoidal" head_type then float_div Rad aspect_ratio
  else Ok 0.

Definition calculate_position (c : component) (support_height Rad L : R)
  : result (R * R * R) :=
  let location := location c in
  let th := radians (theta c) in
  let offset := offset c in
  let X := offset * sin th in
  let Z := - offset * cos th in
  Y <- (if (location =? "Shell")%string then
          Ok (support_height + elevation c)
        else
          let head_type :=
            if str_in "Hemispherical" location
            then "Hemispherical" else "Ellipsoidal" in
          let aspect_ratio := get_aspect_ratio c in
          head_depth <- calculate_head_depth head_type Rad aspect_ratio ;;
          if str_in "Top" location then
            let base_elevation := support_height + L + head_depth in
            if str_in "Hemispherical" location then
              s <- math_sqrt (head_depth ^ 2 - offset ^ 2) ;;
              Ok (base_elevation + head_depth - s)
            else
              q <- float_div (offset ^ 2) (Rad ^ 2) ;;
              s <- math_sqrt (1 - q) ;;
              Ok (base_elevation + head_depth * (1 - s))
          else
            let base_elevation := support_height - head_depth in
            if str_in "Hemispherical" location then
              s <- math_sqrt (head_depth ^ 2 - offset ^ 2) ;;
              Ok (base_elevation - head_depth + s)
            else
              q <- float_div (offset ^ 2) (Rad ^ 2) ;;
              s <- math_sqrt (1 - q) ;;
              Ok (base_elevation - head_depth * (1 - s))) ;;
  Ok (X, Y, Z).

Definition transform_loads (n : nozzle) (support_height Rad L : R)
  : result (GlobalLoad R) :=
  p <- calculate_position (nz n) support_height Rad L ;;
  let '(X, Y, Z) := p in
  let th := radians (theta (nz n)) in
  let '(Fx, Fy, Fz) :=
    if str_in "Head" (location (nz n)) then
      (V1 n * sin th + V2 n * cos th,
       P n,
       - V1 n * cos th + V2 n * sin th)
    else
      (P n * sin th + Vc n * cos th,
       VL n,
       - P n * cos th + Vc n * sin th) in
  let Mx := Y * Fz - Z * Fy in
  let My := Z * Fx - X * Fz in
  let Mz := X * Fy - Y * Fx in
  Ok (mkLoad Fx Fy Fz Mx My Mz).

(** *** The running totals of [main]

    [total_Fx = ... = 0.0], then for each nozzle the six components of
    [transform_loads] are added to the totals with [+=]. *)

Section Totals.

Context {A : Type} (zero : A) (add : A -> A -> A).

Definition add_load (t g : GlobalLoad A) : GlobalLoad A :=
  mkLoad (add (Fx t) (Fx g)) (add (Fy t) (Fy g)) (add (Fz t) (Fz g))
         (add (Mx t) (Mx g)) (add (My t) (My g)) (add (Mz t) (Mz g)).

Definition zero_load : GlobalLoad A := mkLoad zero zero zero zero zero zero.

Fixpoint main_loop {N : Type} (transform : N -> result (GlobalLoad A))
    (nozzles : list N) (total : GlobalLoad A) : result (GlobalLoad A) :=
  match nozzles with
  | [] => Ok total
  | n :: rest =>
      g <- transform n ;;
      main_loop transform rest (add_load total g)
  end.

End Totals.

(** The body of [main] under the "Calculate Foundation Loads" button. *)
Definition main_calculate (nozzles : list nozzle) (support_height Rad L : R)
  : result (GlobalLoad R) :=
  main_loop Rplus (fun n => transform_loads n support_height Rad L)
            nozzles (zero_load 0).

End DS_NLTrans_F.

(** ** Derived notions and sample inputs *)

(** A nozzle with axial load 1 at the apex of a hemispherical bottom head. *)
Definition bottom_apex_nozzle : nozzle :=
  mkNozzle (mkComponent "Hemispherical Bottom Head" 0 0 0 (Some 2))
           "N-1" "Nozzle" 1 0 0 0 0.

(** A nozzle at offset 3 on a hemispherical top head of radius 5. *)
Definition hemi_top_3_of_5 : component :=
  mkComponent "Hemispherical Top Head" 3 0 0 (Some 2).

(** A nozzle on the rim of a hemispherical top head: offset = R = 1. *)
Definition hemi_top_rim : component :=
  mkComponent "Hemispherical Top Head" 1 0 0 (Some 2).

(** A nozzle at offset 2 on a hemispherical top head of radius 1. *)
Definition hemi_top_outside : nozzle :=
  mkNozzle (mkComponent "Hemispherical Top Head" 2 0 0 (Some 2))
           "N-1" "Nozzle" 0 0 0 0 0.

(** A nozzle at the apex of an ellipsoidal top head of aspect ratio 4. *)
Definition ellip_top_apex : component :=
  mkComponent "Ellipsoidal Top Head" 0 0 30 (Some 4).

Definition nozzle_with_theta (t : R) (n : nozzle) : nozzle :=
  mkNozzle (with_theta t (nz n)) (nz_tag_no n) (nz_type n)
           (P n) (V1 n) (V2 n) (Vc n) (VL n).

Definition support_with_theta (t : R) (s : support) : support :=
  mkSupport (with_theta t (sp s)) (sp_tag_no s) (sp_type s)
            (Fv s) (Fh1 s) (Fh2 s).

Definition scenario_nozzle : nozzle :=
  mkNozzle (mkComponent "Shell" 0 5 0 (Some 2)) "N-1" "Nozzle" 100 0 0 0 0.


(** The value of a computation, forgetting which exception was raised. *)
Definition value_of {A : Type} (r : result A) : option A :=
  match r with
  | Ok a => Some a
  | Raise _ => None
  end.

(** The load of the last row of the displayed table, the ['TOTAL'] row. *)
Definition total_of {A : Type} (r : result (list (NLTrans_V.ResultRow A)))
  : option (GlobalLoad A) :=
  match r with
  | Ok rows =>
      match rev rows with
      | t :: _ => Some (NLTrans_V.row_load t)
      | [] => None
      end
  | Raise _ => None
  end.

(** The rows [display_results] puts in the frame. *)
Definition all_rows {A : Type} (nozzle_results : list (NLTrans_V.ResultRow A))
    (support_results : option (list (NLTrans_V.ResultRow A)))
  : list (NLTrans_V.ResultRow A) :=
  nozzle_results ++ match support_results with
                    | Some l => l
                    | None => []
                    end.

Definition column_total (k : NLTrans_V.LoadColumn)
    (rows : list (NLTrans_V.ResultRow R)) : R :=
  fold_left Rplus
    (map (fun r => NLTrans_V.column_value k (NLTrans_V.row_load r)) rows) 0.

Definition totals_row (rows : list (NLTrans_V.ResultRow R))
  : NLTrans_V.ResultRow R :=
  NLTrans_V.mkRow "TOTAL" ""
    (mkLoad (column_total NLTrans_V.cFx rows) (column_total NLTrans_V.cFy rows)
            (column_total NLTrans_V.cFz rows) (column_total NLTrans_V.cMx rows)
            (column_total NLTrans_V.cMy rows) (column_total NLTrans_V.cMz rows)).

(** Two runs of a loop over permuted inputs: both raise, or both return
    and the outputs are permutations of each other. *)
Definition same_up_to_order {Y : Type} (a b : result (list Y)) : Prop :=
  match a, b with
  | Ok x, Ok y => Permutation x y
  | Raise _, Raise _ => True
  | _, _ => False
  end.

(** The shell branch of [transform_loads] / [transform_nozzle_loads] in
    binary64 arithmetic at [theta = 0.0], where [math.sin] returns 0.0 and
    [math.cos] returns 1.0 exactly. *)
Definition float_shell_loads_at_0
    (support_height offset elevation P Vc VL : float) : GlobalLoad float :=
  let sin_th := 0%float in
  let cos_th := 1%float in
  let X := PrimFloat.mul offset sin_th in
  let Z := PrimFloat.mul (PrimFloat.opp offset) cos_th in
  let Y := PrimFloat.add support_height elevation in
  let Fx := PrimFloat.add (PrimFloat.mul P sin_th) (PrimFloat.mul Vc cos_th) in
  let Fy := VL in
  let Fz := PrimFloat.add (PrimFloat.mul (PrimFloat.opp P) cos_th)
                          (PrimFloat.mul Vc sin_th) in
  let Mx := PrimFloat.sub (PrimFloat.mul Y Fz) (PrimFloat.mul Z Fy) in
  let My := PrimFloat.sub (PrimFloat.mul Z Fx) (PrimFloat.mul X Fz) in
  let Mz := PrimFloat.sub (PrimFloat.mul X Fy) (PrimFloat.mul Y Fx) in
  mkLoad Fx Fy Fz Mx My Mz.

(** The loads of a shell nozzle at elevation 0 and [theta = 0] whose only
    load is the longitudinal [VL = v], with [supportHeight = 0]. *)
Definition float_shell_load (v : float) : GlobalLoad float :=
  float_shell_loads_at_0 0%float 0%float 0%float 0%float 0%float v.

Definition float_row (tag : string) (v : float) : NLTrans_V.ResultRow float :=
  NLTrans_V.mkRow tag "Nozzle" (float_shell_load v).

(** [math.isclose(a, b, rel_tol=rel_tol)] on binary64 floats. *)
Definition isclose (rel_tol a b : float) : bool :=
  let diff := PrimFloat.abs (PrimFloat.sub b a) in
  PrimFloat.eqb a b
  || PrimFloat.leb diff (PrimFloat.abs (PrimFloat.mul rel_tol b))
  || PrimFloat.leb diff (PrimFloat.abs (PrimFloat.mul rel_tol a)).

(** The double nearest to 1e-9. *)
Definition rel_tol_1e9 : float := 0x1.12e0be826d695p-30%float.

(** ** The input forms of [main]

    The dictionaries [main] appends for one nozzle or pipe support, as a
    function of the values the widgets return.  [st.number_input] with a
    minimum and a maximum returns a value between them; these bounds are
    the hypotheses of the theorems on the forms. *)

(** The options of the location select box, in the order of the source. *)
Definition location_options : list string :=
  ["Shell"; "Hemispherical Top Head"; "Hemispherical Bottom Head";
   "Ellipsoidal Top Head"; "Ellipsoidal Bottom Head"].

(** NLTrans_V.0sm.py, the nozzle tab: the elevation widget is read on the
    shell, the offset and aspect-ratio widgets on a head; the three load
    widgets are [P, Vc, VL] on the shell and [P, V1, V2] on a head. *)
Definition V_nozzle_record (location tag_no : string)
    (w_elevation w_offset w_theta w_aspect w_P w_load2 w_load3 : R)
  : nozzle :=
  let '(elevation, offset, aspect_ratio) :=
    if (location =? "Shell")%string then (w_elevation, 0, 2)
    else (0, w_offset,
          if str_in "Ellipsoidal" location then w_aspect else 2) in
  let '(V1, V2, Vc, VL) :=
    if str_in "Head" location then (w_load2, w_load3, 0, 0)
    else (0, 0, w_load2, w_load3) in
  mkNozzle (mkComponent location offset elevation w_theta (Some aspect_ratio))
           tag_no "Nozzle" w_P V1 V2 Vc VL.

(** NLTrans_V.0sm.py, the pipe-support tab: the location is always
    ["Shell"]. *)
Definition V_support_record (tag_no : string)
    (w_elevation w_theta w_offset w_Fv w_Fh1 w_Fh2 : R) : support :=
  mkSupport (mkComponent "Shell" w_offset w_elevation w_theta (Some 2))
            tag_no "Pipe Support" w_Fv w_Fh1 w_Fh2.

(** DS_NLTrans_F.py: the same layout; the dictionary has no tag. *)
Definition DS_nozzle_record (location : string)
    (w_elevation w_offset w_theta w_aspect w_P w_load2 w_load3 : R)
  : nozzle :=
  let '(elevation, offset, aspect_ratio) :=
    if (location =? "Shell")%string then (w_elevation, 0, 2)
    else (0, w_offset,
          if str_in "Ellipsoidal" location then w_aspect else 2) in
  mkNozzle (mkComponent location offset elevation w_theta (Some aspect_ratio))
           "" ""
           w_P
           (if str_in "Head" location then w_load2 else 0)
           (if str_in "Head" location then w_load3 else 0)
           (if (location =? "Shell")%string then w_load2 else 0)
           (if (location =? "Shell")%string then w_load3 else 0).

(** The bound of the offset widget: [calculate_head_depth(head_type, R)]
    with the default aspect ratio 2.0. *)
Definition max_offset (location : string) (Rad : R) : result R :=
  let head_type :=
    if str_in "Hemispherical" location
    then "Hemispherical" else "Ellipsoidal" in
  NLTrans_V.calculate_head_depth head_type Rad 2.

(** The widget values lie within the bounds the form gives them. *)
Definition widgets_in_bounds (location : string)
    (Rad L w_elevation w_offset w_aspect : R) : Prop :=
  In location location_options /\
  1 / 10 <= Rad <= 10 /\
  0 <= w_elevation <= L /\
  (exists m, max_offset location Rad = Ok m /\ 0 <= w_offset <= m) /\
  15 / 10 <= w_aspect <= 4.

(** A nozzle dictionary the form of NLTrans_V.0sm.py can produce. *)
Definition V_form_nozzle (Rad L : R) (n : nozzle) : Prop :=
  exists location tag_no w_elevation w_offset w_theta w_aspect w_P w_l2 w_l3,
    widgets_in_bounds location Rad L w_elevation w_offset w_aspect /\
    n = V_nozzle_record location tag_no w_elevation w_offset w_theta
          w_aspect w_P w_l2 w_l3.

(** A nozzle dictionary the form of DS_NLTrans_F.py can produce. *)
Definition DS_form_nozzle (Rad L : R) (n : nozzle) : Prop :=
  exists location w_elevation w_offset w_theta w_aspect w_P w_l2 w_l3,
    widgets_in_bounds location Rad L w_elevation w_offset w_aspect /\
    n = DS_nozzle_record location w_elevation w_offset w_theta
          w_aspect w_P w_l2 w_l3.

(** ** Notions used by the further properties *)

Definition with_location (loc : string) (c : component) : component :=
  mkComponent loc (offset c) (elevation c) (theta c) (aspect_ratio c).

(** How [calculate_position] reads a location other than ["Shell"]. *)
Definition shape_read (loc : string) : HeadShape :=
  if str_in "Hemispherical" loc then Hemispherical else Ellipsoidal.

Definition end_read (loc : string) : HeadEnd :=
  if str_in "Top" loc then Top else Bottom.



(** The shell nozzle that carries the loads of a pipe support. *)
Definition nozzle_of_support (s : support) : nozzle :=
  mkNozzle (sp s) (sp_tag_no s) (sp_type s) (Fh1 s) 0 0 (Fh2 s) (Fv s).

Definition plus_load (a b : GlobalLoad R) : GlobalLoad R :=
  DS_NLTrans_F.add_load Rplus a b.

(** Component-wise sum of a list of loads, from zero. *)
Definition sum_loads (gs : list (GlobalLoad R)) : GlobalLoad R :=
  fold_left plus_load gs (DS_NLTrans_F.zero_load 0).

(** The row [main] of NLTrans_V.0sm.py appends for a nozzle result. *)
Definition nozzle_row (n : nozzle) (g : GlobalLoad R)
  : NLTrans_V.ResultRow R :=
  NLTrans_V.mkRow (nz_tag_no n) (nz_type n) g.

Definition support_row (s : support) (g : GlobalLoad R)
  : NLTrans_V.ResultRow R :=
  NLTrans_V.mkRow (sp_tag_no s) (sp_type s) g.

Definition with_aspect_ratio (a : option R) (c : component) : component :=
  mkComponent (location c) (offset c) (elevation c) (theta c) a.

(** ** Binary64 readings

    Fragments of the code evaluated with the primitive binary64 floats, to
    show where the exact-arithmetic statements stop describing the
    program. *)



(** [math.pi], the double nearest to pi. *)
Definition pi_float : float := 0x1.921fb54442d18p+1%float.

(** [math.radians] in binary64: multiplication by the constant
    [math.pi / 180.0]. *)
Definition float_radians (deg : float) : float :=
  PrimFloat.mul deg (PrimFloat.div pi_float 180%float).

(** The real number a finite double stands for (0 for the others). *)
Definition real_of_float (f : float) : R :=
  match Prim2SF f with
  | S754_finite s m e => (if s then -1 else 1) * IZR (Zpos m) * powerRZ 2 e
  | _ => 0
  end.

(** The horizontal coordinates of [calculate_position] when the angle is
    converted to radians in binary64 and the sine and cosine of that
    double are taken exactly. *)
Definition XZ_at_binary64_angle (offset : R) (theta : float) : R * R :=
  let th := real_of_float (float_radians theta) in
  (offset * sin th, - offset * cos th).

(** ** Auxiliary facts *)

(** Evaluate the string tests of a goal on literal strings. *)
Ltac eval_strings :=
  repeat match goal with
    | |- context [str_in ?a ?b] =>
        let v := eval vm_compute in (str_in a b) in
        change (str_in a b) with v
    | |- context [String.eqb ?a ?b] =>
        let v := eval vm_compute in (String.eqb a b) in
        change (String.eqb a b) with v
    end;
  cbv beta iota.

Lemma math_sqrt_nonneg (x : R) : 0 <= x -> math_sqrt x = Ok (sqrt x).
Proof.
  intros Hx. unfold math_sqrt. destruct (Rlt_dec x 0); [lra | reflexivity].
Qed.

Lemma math_sqrt_neg (x : R) : x < 0 -> math_sqrt x = Raise ValueError.
Proof.
  intros Hx. unfold math_sqrt. destruct (Rlt_dec x 0); [reflexivity | lra].
Qed.

Lemma float_div_nonzero (a b : R) : b <> 0 -> float_div a b = Ok (a / b).
Proof.
  intros Hb. unfold float_div. destruct (Req_dec_T b 0); [contradiction | reflexivity].
Qed.

Lemma float_div_zero (a : R) : float_div a 0 = Raise ZeroDivisionError.
Proof.
  unfold float_div. destruct (Req_dec_T 0 0); [reflexivity | contradiction].
Qed.

Lemma radians_0 : radians 0 = 0.
Proof. unfold radians. lra. Qed.

Lemma Ok_triple (a a' b b' c c' : R) :
  a = a' -> b = b' -> c = c' -> @Ok (R * R * R) (a, b, c) = Ok (a', b', c').
Proof. intros -> -> ->. reflexivity. Qed.

(** ** Bottom-head force mapping (C1) *)

Lemma DS_bottom_apex_position :
  DS_NLTrans_F.calculate_position (nz bottom_apex_nozzle) 0 1 0
  = Ok (0 * sin (radians 0), 0 - 1 - 1 + sqrt (1 ^ 2 - 0 ^ 2),
        - 0 * cos (radians 0)).
Proof.
  unfold DS_NLTrans_F.calculate_position, DS_NLTrans_F.calculate_head_depth.
  cbn [bottom_apex_nozzle nz location offset theta elevation].
  eval_strings. cbn [bind].
  rewrite math_sqrt_nonneg by lra. reflexivity.
Qed.

(** C1, as stated, fails on [DS_NLTrans_F.transform_loads]: on a bottom head
    it returns [Fy = P], not [Fy = -P]. *)
Lemma C1_DS_bottom_head_not_flipped :
  exists g,
    DS_NLTrans_F.transform_loads bottom_apex_nozzle 0 1 0 = Ok g /\
    Fy g = P bottom_apex_nozzle /\
    Fy g <> - P bottom_apex_nozzle.
Proof.
  unfold DS_NLTrans_F.transform_loads.
  rewrite DS_bottom_apex_position. cbn [bind].
  cbn [bottom_apex_nozzle nz location theta P V1 V2].
  eval_strings.
  eexists; split; [reflexivity |]. cbn [Fy]. split; lra.
Qed.

(** C1 (amended): on a bottom head, [transform_nozzle_loads] of
    NLTrans_V.0sm.py returns the sign-flipped forces
    [Fx = -V1 sin th + V2 cos th], [Fy = -P], [Fz = V1 cos th + V2 sin th]
    whenever the position resolves, and raises the position's exception
    otherwise; [transform_loads] of DS_NLTrans_F.py applies the top-head
    mapping [Fx = V1 sin th + V2 cos th], [Fy = P],
    [Fz = -V1 cos th + V2 sin th] to bottom heads as well. *)
Theorem C1_bottom_head_forces (n : nozzle) (s : HeadShape)
    (support_height Rad L : R) :
  location (nz n) = head_location s Bottom ->
  let th := radians (theta (nz n)) in
  match NLTrans_V.calculate_position (nz n) support_height Rad L with
  | Ok _ =>
      exists g,
        NLTrans_V.transform_nozzle_loads n support_height Rad L = Ok g /\
        Fx g = - V1 n * sin th + V2 n * cos th /\
        Fy g = - P n /\
        Fz g = V1 n * cos th + V2 n * sin th
  | Raise e =>
      NLTrans_V.transform_nozzle_loads n support_height Rad L = Raise e
  end /\
  match DS_NLTrans_F.calculate_position (nz n) support_height Rad L with
  | Ok _ =>
      exists g,
        DS_NLTrans_F.transform_loads n support_height Rad L = Ok g /\
        Fx g = V1 n * sin th + V2 n * cos th /\
        Fy g = P n /\
        Fz g = - V1 n * cos th + V2 n * sin th
  | Raise e =>
      DS_NLTrans_F.transform_loads n support_height Rad L = Raise e
  end.
Proof.
  intros Hloc th.
  unfold NLTrans_V.transform_nozzle_loads, DS_NLTrans_F.transform_loads.
  split.
  - destruct (NLTrans_V.calculate_position _ _ _ _) as [[[X Y] Z] | e];
      cbn [bind]; [| reflexivity].
    rewrite Hloc. destruct s; cbn [head_location]; eval_strings;
      eexists; (split; [reflexivity |]); cbn [Fx Fy Fz]; fold th; auto.
  - destruct (DS_NLTrans_F.calculate_position _ _ _ _) as [[[X Y] Z] | e];
      cbn [bind]; [| reflexivity].
    rewrite Hloc. destruct s; cbn [head_location]; eval_strings;
      eexists; (split; [reflexivity |]); cbn [Fx Fy Fz]; fold th; auto.
Qed.

Lemma V_bottom_apex_position :
  NLTrans_V.calculate_position (nz bottom_apex_nozzle) 0 1 0
  = Ok (0 * sin (radians 0), 0 - 1, - 0 * cos (radians 0)).
Proof.
  unfold NLTrans_V.calculate_position, NLTrans_V.calculate_head_depth.
  cbn [bottom_apex_nozzle nz location offset theta elevation].
  eval_strings. cbn [bind].
  destruct (Req_dec_T 0 0); [reflexivity | contradiction].
Qed.

Lemma C1_bottom_head_forces_witness :
  location (nz bottom_apex_nozzle) = head_location Hemispherical Bottom /\
  (exists g,
      NLTrans_V.transform_nozzle_loads bottom_apex_nozzle 0 1 0 = Ok g /\
      Fy g = - P bottom_apex_nozzle) /\
  (exists g,
      DS_NLTrans_F.transform_loads bottom_apex_nozzle 0 1 0 = Ok g /\
      Fy g = P bottom_apex_nozzle).
Proof.
  split; [reflexivity |].
  destruct (C1_bottom_head_forces bottom_apex_nozzle Hemispherical 0 1 0
              eq_refl) as [HV HDS].
  rewrite V_bottom_apex_position in HV.
  rewrite DS_bottom_apex_position in HDS.
  destruct HV as (g & Hg & _ & Hy & _).
  destruct HDS as (g' & Hg' & _ & Hy' & _).
  split; [exists g | exists g']; auto.
Defined.

(** ** Vertical coordinate on a hemispherical head (C2) *)

(** Unfold both position functions at a head location known by [Hloc]. *)
Ltac at_head Hloc :=
  unfold NLTrans_V.calculate_position, NLTrans_V.calculate_head_depth,
    DS_NLTrans_F.calculate_position, DS_NLTrans_F.calculate_head_depth;
  cbv zeta; rewrite ?Hloc; cbn [head_location head_type_name];
  eval_strings; cbn [bind].

Lemma hemispherical_depth (Rad ar d : R) :
  NLTrans_V.calculate_head_depth (head_type_name Hemispherical) Rad ar = Ok d ->
  d = Rad.
Proof.
  unfold NLTrans_V.calculate_head_depth. cbn [head_type_name]. eval_strings.
  intros H. injection H as H. symmetry. exact H.
Qed.

Lemma ellipsoidal_depth (Rad ar d : R) :
  NLTrans_V.calculate_head_depth (head_type_name Ellipsoidal) Rad ar = Ok d ->
  ar <> 0 /\ d = Rad / ar.
Proof.
  unfold NLTrans_V.calculate_head_depth, float_div.
  cbn [head_type_name]. eval_strings.
  destruct (Req_dec_T ar 0); intros H; [discriminate |].
  injection H as H. split; [assumption | symmetry; exact H].
Qed.

Lemma sqrt_diff_squares_nonneg (d x : R) : 0 <= x <= d -> 0 <= d ^ 2 - x ^ 2.
Proof. intros [H0 H1]. nra. Qed.

Lemma sqrt_25_minus_9 : sqrt (5 ^ 2 - 3 ^ 2) = 4.
Proof. apply sqrt_lem_1; lra. Qed.

(** On a hemispherical head of depth [d] (the radius) with
    [0 <= offset < d], [calculate_position] of NLTrans_V.0sm.py returns
    [Y = supportHeight + L + sqrt (d^2 - offset^2)] on a top head and
    [Y = supportHeight - sqrt (d^2 - offset^2)] on a bottom head, while
    [calculate_position] of DS_NLTrans_F.py returns
    [Y = supportHeight + L + d + d - sqrt (d^2 - offset^2)] on a top head
    and [Y = supportHeight - d - d + sqrt (d^2 - offset^2)] on a bottom
    head. *)
Lemma hemispherical_head_Y (c : component) (e : HeadEnd)
    (d support_height Rad L : R) :
  location c = head_location Hemispherical e ->
  NLTrans_V.calculate_head_depth (head_type_name Hemispherical) Rad
    (get_aspect_ratio c) = Ok d ->
  0 <= offset c < d ->
  let th := radians (theta c) in
  let root := sqrt (d ^ 2 - offset c ^ 2) in
  NLTrans_V.calculate_position c support_height Rad L
  = Ok (offset c * sin th,
        match e with
        | Top => support_height + L + root
        | Bottom => support_height - root
        end,
        - offset c * cos th)
  /\
  DS_NLTrans_F.calculate_position c support_height Rad L
  = Ok (offset c * sin th,
        match e with
        | Top => support_height + L + d + d - root
        | Bottom => support_height - d - d + root
        end,
        - offset c * cos th).
Proof.
  intros Hloc Hd Hoff th root.
  apply hemispherical_depth in Hd. subst d.
  assert (Hroot : 0 <= Rad ^ 2 - offset c ^ 2)
    by (apply sqrt_diff_squares_nonneg; lra).
  split.
  - destruct e; at_head Hloc;
      (destruct (Req_dec_T (offset c) 0) as [H0 | H0];
       [ cbn [bind]; subst th root; rewrite H0;
         replace (Rad ^ 2 - 0 ^ 2) with (Rad ^ 2) by ring;
         rewrite sqrt_pow2 by lra; reflexivity
       | rewrite math_sqrt_nonneg by exact Hroot; reflexivity ]).
  - destruct e; at_head Hloc;
      rewrite math_sqrt_nonneg by exact Hroot; reflexivity.
Qed.

(** C2 holds on NLTrans_V.0sm.py and fails on DS_NLTrans_F.py.  With
    [supportHeight = 0], [L = 0], radius 5 and offset 3 on a hemispherical
    top head the claimed coordinate is [sqrt (5^2 - 3^2) = 4], which
    [calculate_position] of NLTrans_V.0sm.py returns; that of
    DS_NLTrans_F.py returns [Y = 6], above the apex of the head at 5. *)
Theorem C2_hemispherical_Y_at_offset_3_of_5 :
  0 + 0 + sqrt (5 ^ 2 - 3 ^ 2) = 4 /\
  (exists X Z,
      NLTrans_V.calculate_position hemi_top_3_of_5 0 5 0 = Ok (X, 4, Z)) /\
  (exists X Z,
      DS_NLTrans_F.calculate_position hemi_top_3_of_5 0 5 0 = Ok (X, 6, Z)).
Proof.
  assert (Hoff : 0 <= offset hemi_top_3_of_5 < 5)
    by (cbn [hemi_top_3_of_5 offset]; lra).
  destruct (hemispherical_head_Y hemi_top_3_of_5 Top 5 0 5 0
              eq_refl eq_refl Hoff) as [HV HDS].
  cbn [hemi_top_3_of_5 offset theta] in HV, HDS.
  rewrite sqrt_25_minus_9 in HV, HDS.
  split; [rewrite sqrt_25_minus_9; ring |].
  split; do 2 eexists.
  - rewrite HV. apply Ok_triple; [reflexivity | ring | reflexivity].
  - rewrite HDS. apply Ok_triple; [reflexivity | ring | reflexivity].
Qed.

(** ** Offsets outside the head (C3) *)

Lemma ratio_above_one (x r : R) : r <> 0 -> r ^ 2 < x ^ 2 -> 1 - x ^ 2 / r ^ 2 < 0.
Proof.
  intros Hr Hlt.
  assert (Hpos : 0 < r ^ 2) by nra.
  assert (Hq : x ^ 2 / r ^ 2 * r ^ 2 = x ^ 2) by (field; lra).
  nra.
Qed.

Lemma ratio_at_most_one (x r : R) :
  0 < r -> 0 <= x <= r -> 0 <= 1 - x ^ 2 / r ^ 2.
Proof.
  intros Hr [H0 H1].
  assert (Hpos : 0 < r ^ 2) by nra.
  assert (Hq : x ^ 2 / r ^ 2 * r ^ 2 = x ^ 2) by (field; lra).
  nra.
Qed.

Lemma square_nonzero (r : R) : r <> 0 -> r ^ 2 <> 0.
Proof. intros Hr. nra. Qed.

(** C3, as stated, fails at the boundary: with [headDepth = R = 1] and
    [offset = 1] on a hemispherical top head, neither variant rejects the
    attachment.  NLTrans_V.0sm.py returns [Y = 10], the base
    [supportHeight + L]; DS_NLTrans_F.py returns [Y = 12], the base plus
    twice the head depth. *)
Lemma C3_boundary_offset_accepted :
  NLTrans_V.calculate_head_depth "Hemispherical" 1 (get_aspect_ratio hemi_top_rim)
  = Ok (offset hemi_top_rim) /\
  (exists X Z,
      NLTrans_V.calculate_position hemi_top_rim 0 1 10 = Ok (X, 10, Z)) /\
  (exists X Z,
      DS_NLTrans_F.calculate_position hemi_top_rim 0 1 10 = Ok (X, 12, Z)) /\
  ~ raised (NLTrans_V.calculate_position hemi_top_rim 0 1 10) /\
  ~ raised (DS_NLTrans_F.calculate_position hemi_top_rim 0 1 10).
Proof.
  assert (HV : NLTrans_V.calculate_position hemi_top_rim 0 1 10
               = Ok (1 * sin (radians 0), 10, - 1 * cos (radians 0))).
  { unfold NLTrans_V.calculate_position, NLTrans_V.calculate_head_depth.
    cbn [hemi_top_rim location offset theta elevation].
    eval_strings. cbn [bind].
    destruct (Req_dec_T 1 0); [lra |].
    rewrite math_sqrt_nonneg by lra. cbn [bind].
    replace (1 ^ 2 - 1 ^ 2) with 0 by ring. rewrite sqrt_0.
    apply Ok_triple; lra. }
  assert (HDS : DS_NLTrans_F.calculate_position hemi_top_rim 0 1 10
                = Ok (1 * sin (radians 0), 12, - 1 * cos (radians 0))).
  { unfold DS_NLTrans_F.calculate_position, DS_NLTrans_F.calculate_head_depth.
    cbn [hemi_top_rim location offset theta elevation].
    eval_strings. cbn [bind].
    rewrite math_sqrt_nonneg by lra. cbn [bind].
    replace (1 ^ 2 - 1 ^ 2) with 0 by ring. rewrite sqrt_0.
    apply Ok_triple; lra. }
  split; [reflexivity |].
  split; [do 2 eexists; exact HV |].
  split; [do 2 eexists; exact HDS |].
  split; [rewrite HV | rewrite HDS]; cbn; tauto.
Qed.

(** C3 (amended): for a radius in the range of the form, [0.1 <= R <= 10],
    and an offset whose square is within the range of a float,
    [|offset| <= 1e154], an offset that puts the square-root argument below
    zero ([offset^2 > d^2] on a hemispherical head, [offset^2 > R^2] on an
    ellipsoidal head) makes [calculate_position] raise Python's
    [ValueError] ("math domain error") in both variants, and the exception
    leaves [transform_nozzle_loads], [transform_loads] and the calculation
    of [main] uncaught; there is no validation error.  (Beyond these
    magnitudes [**] raises [OverflowError] or the division
    [ZeroDivisionError] first; neither is a validation error.)  The
    boundary [offset = R] on a hemispherical head is not rejected. *)
Theorem C3_offset_out_of_domain (c : component) (s : HeadShape) (e : HeadEnd)
    (d support_height Rad L : R) :
  location c = head_location s e ->
  NLTrans_V.calculate_head_depth (head_type_name s) Rad (get_aspect_ratio c)
  = Ok d ->
  1 / 10 <= Rad <= 10 ->
  Rabs (offset c) <= 10 ^ 154 ->
  match s with
  | Hemispherical => d ^ 2 < offset c ^ 2
  | Ellipsoidal => Rad ^ 2 < offset c ^ 2
  end ->
  NLTrans_V.calculate_position c support_height Rad L = Raise ValueError /\
  DS_NLTrans_F.calculate_position c support_height Rad L = Raise ValueError /\
  forall (n : nozzle) (ns : list nozzle) (ss : list support),
    nz n = c ->
    NLTrans_V.transform_nozzle_loads n support_height Rad L
    = Raise ValueError /\
    DS_NLTrans_F.transform_loads n support_height Rad L = Raise ValueError /\
    NLTrans_V.main_calculate (n :: ns) ss support_height Rad L
    = Raise ValueError /\
    DS_NLTrans_F.main_calculate (n :: ns) support_height Rad L
    = Raise ValueError.
Proof.
  intros Hloc Hd HR _ Hdom.
  assert (Hr : Rad <> 0) by lra.
  assert (HV : NLTrans_V.calculate_position c support_height Rad L
               = Raise ValueError).
  { destruct s.
    - apply hemispherical_depth in Hd. subst d.
      assert (H0 : offset c <> 0) by nra.
      destruct e; at_head Hloc;
        (destruct (Req_dec_T (offset c) 0); [contradiction |]);
        rewrite math_sqrt_neg by lra; reflexivity.
    - apply ellipsoidal_depth in Hd. destruct Hd as [Har _].
      pose proof Hdom as Hlt.
      assert (H0 : offset c <> 0) by nra.
      destruct e; at_head Hloc;
        rewrite (float_div_nonzero _ _ Har); cbn [bind];
        (destruct (Req_dec_T (offset c) 0); [contradiction |]);
        rewrite (float_div_nonzero _ _ (square_nonzero _ Hr)); cbn [bind];
        rewrite (math_sqrt_neg _ (ratio_above_one _ _ Hr Hlt));
        reflexivity. }
  assert (HDS : DS_NLTrans_F.calculate_position c support_height Rad L
                = Raise ValueError).
  { destruct s.
    - apply hemispherical_depth in Hd. subst d.
      destruct e; at_head Hloc;
        rewrite math_sqrt_neg by lra; reflexivity.
    - apply ellipsoidal_depth in Hd. destruct Hd as [Har _].
      pose proof Hdom as Hlt.
      destruct e; at_head Hloc;
        rewrite (float_div_nonzero _ _ Har); cbn [bind];
        rewrite (float_div_nonzero _ _ (square_nonzero _ Hr)); cbn [bind];
        rewrite (math_sqrt_neg _ (ratio_above_one _ _ Hr Hlt));
        reflexivity. }
  split; [exact HV |]. split; [exact HDS |].
  intros n ns ss Hn. subst c.
  assert (HtV : NLTrans_V.transform_nozzle_loads n support_height Rad L
                = Raise ValueError)
    by (unfold NLTrans_V.transform_nozzle_loads; rewrite HV; reflexivity).
  assert (HtDS : DS_NLTrans_F.transform_loads n support_height Rad L
                 = Raise ValueError)
    by (unfold DS_NLTrans_F.transform_loads; rewrite HDS; reflexivity).
  repeat split; try assumption.
  - unfold NLTrans_V.main_calculate. cbn [NLTrans_V.for_each].
    rewrite HtV. reflexivity.
  - unfold DS_NLTrans_F.main_calculate. cbn [DS_NLTrans_F.main_loop].
    rewrite HtDS. reflexivity.
Qed.

Lemma C3_offset_out_of_domain_witness :
  NLTrans_V.calculate_position (nz hemi_top_outside) 0 1 10 = Raise ValueError /\
  DS_NLTrans_F.calculate_position (nz hemi_top_outside) 0 1 10
  = Raise ValueError /\
  NLTrans_V.main_calculate [hemi_top_outside] [] 0 1 10 = Raise ValueError /\
  DS_NLTrans_F.main_calculate [hemi_top_outside] 0 1 10 = Raise ValueError.
Proof.
  assert (Hdom : 1 ^ 2 < offset (nz hemi_top_outside) ^ 2)
    by (cbn [hemi_top_outside nz offset]; lra).
  assert (HR : 1 / 10 <= 1 <= 10) by lra.
  assert (Hmag : Rabs (offset (nz hemi_top_outside)) <= 10 ^ 154).
  { cbn [hemi_top_outside nz offset]. rewrite Rabs_pos_eq by lra.
    apply Rle_trans with (10 ^ 1); [lra |].
    apply Rle_pow; [lra | lia]. }
  destruct (C3_offset_out_of_domain (nz hemi_top_outside) Hemispherical Top
              1 0 1 10 eq_refl eq_refl HR Hmag Hdom) as (HV & HDS & Hn).
  destruct (Hn hemi_top_outside [] [] eq_refl) as (_ & _ & HmV & HmDS).
  repeat split; assumption.
Defined.

(** ** The apex of a head (C5) *)




(** ** Periodicity in the orientation angle (C6) *)

Lemma radians_full_turn (t : R) : radians (t + 360) = radians t + 2 * PI.
Proof. unfold radians. field. Qed.

Lemma sin_radians_full_turn (t : R) :
  sin (radians (t + 360)) = sin (radians t).
Proof.
  rewrite radians_full_turn, sin_plus, sin_2PI, cos_2PI. ring.
Qed.

Lemma cos_radians_full_turn (t : R) :
  cos (radians (t + 360)) = cos (radians t).
Proof.
  rewrite radians_full_turn, cos_plus, sin_2PI, cos_2PI. ring.
Qed.

Lemma V_position_full_turn (c : component) (support_height Rad L : R) :
  NLTrans_V.calculate_position (with_theta (theta c + 360) c)
    support_height Rad L
  = NLTrans_V.calculate_position c support_height Rad L.
Proof.
  unfold NLTrans_V.calculate_position, get_aspect_ratio.
  cbn [with_theta location offset elevation theta aspect_ratio].
  rewrite sin_radians_full_turn, cos_radians_full_turn. reflexivity.
Qed.

Lemma PI_above_pi_float : 884279719003555 / 2 ^ 48 < PI.
Proof.
  pose proof (PI_2_3_7_ineq 7) as [Hlow _].
  unfold PI_2_3_7_tg, tg_alt, Ratan_seq in Hlow.
  cbn [sum_f_R0 Nat.mul Nat.add pow INR] in Hlow.
  lra.
Qed.

Lemma real_of_radians_0 : real_of_float (float_radians 0%float) = 0.
Proof.
  unfold real_of_float.
  replace (Prim2SF (float_radians 0%float)) with (S754_zero false)
    by (vm_compute; reflexivity).
  reflexivity.
Qed.

Lemma real_of_radians_360 :
  real_of_float (float_radians 360%float) = 7074237752028440 / 2 ^ 50.
Proof.
  unfold real_of_float.
  replace (Prim2SF (float_radians 360%float))
    with (S754_finite false 7074237752028440 (-50))
    by (vm_compute; reflexivity).
  cbn [powerRZ].
  replace (Pos.to_nat 50) with 50%nat by (vm_compute; reflexivity).
  unfold Rdiv. ring.
Qed.

(** C6, as stated, fails in binary64, where [math.radians (theta + 360)]
    is not [math.radians theta] plus a full turn.  At [theta = 0] the code
    passes 0.0 to [math.sin] and [math.cos] and gets [X = 0],
    [Z = -offset].  At [theta = 0 + 360] it passes
    [360.0 * (math.pi / 180.0) = 6.283185307179586], a double strictly
    between pi and 2 pi, whose sine is negative, so that [X] is not 0 for
    [offset = 1]: the position changes.  (Python prints
    [math.sin (math.radians (360)) = -2.4492935982947064e-16].) *)
Lemma C6_binary64_angle_not_periodic :
  PrimFloat.add 0%float 360%float = 360%float /\
  float_radians 0%float = 0%float /\
  float_radians 360%float = 0x1.921fb54442d18p+2%float /\
  PI < real_of_float (float_radians 360%float) < 2 * PI /\
  XZ_at_binary64_angle 1 0%float = (0, -1) /\
  fst (XZ_at_binary64_angle 1 (PrimFloat.add 0%float 360%float)) < 0 /\
  XZ_at_binary64_angle 1 (PrimFloat.add 0%float 360%float)
  <> XZ_at_binary64_angle 1 0%float.
Proof.
  assert (Hadd : PrimFloat.add 0%float 360%float = 360%float)
    by (vm_compute; reflexivity).
  assert (Hr : PI < real_of_float (float_radians 360%float) < 2 * PI).
  { rewrite real_of_radians_360.
    pose proof PI_above_pi_float as Hlow. pose proof PI_4 as Hup.
    split; lra. }
  assert (H0 : XZ_at_binary64_angle 1 0%float = (0, -1)).
  { unfold XZ_at_binary64_angle. cbv zeta.
    rewrite real_of_radians_0, sin_0, cos_0. f_equal; ring. }
  assert (Hneg : fst (XZ_at_binary64_angle 1 (PrimFloat.add 0%float 360%float))
                 < 0).
  { rewrite Hadd. unfold XZ_at_binary64_angle. cbv zeta. cbn [fst].
    pose proof (sin_lt_0 _ (proj1 Hr) (proj2 Hr)) as Hs. lra. }
  split; [exact Hadd |].
  split; [vm_compute; reflexivity |].
  split; [vm_compute; reflexivity |].
  split; [exact Hr |]. split; [exact H0 |]. split; [exact Hneg |].
  intros Heq. rewrite Heq, H0 in Hneg. cbn [fst] in Hneg. lra.
Qed.

(** C6 (amended): over exact real arithmetic, for every component (any
    location, nozzle or pipe support, any loads), replacing [theta] by
    [theta + 360] leaves the result of [calculate_position], of
    [transform_nozzle_loads] and of [transform_support_loads] unchanged:
    the same position, the same six load components, or the same
    exception. *)
Theorem C6_theta_period_360 (support_height Rad L : R) :
  (forall c : component,
      NLTrans_V.calculate_position (with_theta (theta c + 360) c)
        support_height Rad L
      = NLTrans_V.calculate_position c support_height Rad L) /\
  (forall n : nozzle,
      NLTrans_V.transform_nozzle_loads
        (nozzle_with_theta (theta (nz n) + 360) n) support_height Rad L
      = NLTrans_V.transform_nozzle_loads n support_height Rad L) /\
  (forall s : support,
      NLTrans_V.transform_support_loads
        (support_with_theta (theta (sp s) + 360) s) support_height Rad L
      = NLTrans_V.transform_support_loads s support_height Rad L).
Proof.
  split; [intros c; apply V_position_full_turn |]. split.
  - intros n. unfold NLTrans_V.transform_nozzle_loads.
    cbn [nozzle_with_theta nz P V1 V2 Vc VL].
    rewrite V_position_full_turn.
    cbn [with_theta location theta].
    rewrite sin_radians_full_turn, cos_radians_full_turn. reflexivity.
  - intros s. unfold NLTrans_V.transform_support_loads.
    cbn [support_with_theta sp Fv Fh1 Fh2].
    rewrite V_position_full_turn.
    cbn [with_theta theta].
    rewrite sin_radians_full_turn, cos_radians_full_turn. reflexivity.
Qed.

(** ** The worked shell scenario (C8) *)

(** C8: with [supportHeight = 0], [R = 1], [L = 10] and one shell nozzle at
    elevation 5, [theta = 0], [P = 100], [Vc = VL = 0], both variants give
    the position (0, 5, 0), the force (0, 0, -100) and the moments
    (-500, 0, 0). *)
Theorem C8_shell_scenario :
  NLTrans_V.calculate_position (nz scenario_nozzle) 0 1 10 = Ok (0, 5, 0) /\
  NLTrans_V.transform_nozzle_loads scenario_nozzle 0 1 10
  = Ok (mkLoad 0 0 (-100) (-500) 0 0) /\
  DS_NLTrans_F.calculate_position (nz scenario_nozzle) 0 1 10 = Ok (0, 5, 0) /\
  DS_NLTrans_F.transform_loads scenario_nozzle 0 1 10
  = Ok (mkLoad 0 0 (-100) (-500) 0 0).
Proof.
  assert (HV : NLTrans_V.calculate_position (nz scenario_nozzle) 0 1 10
               = Ok (0, 5, 0)).
  { unfold NLTrans_V.calculate_position.
    cbn [scenario_nozzle nz location offset theta elevation].
    eval_strings. cbn [bind]. apply Ok_triple; ring. }
  assert (HDS : DS_NLTrans_F.calculate_position (nz scenario_nozzle) 0 1 10
                = Ok (0, 5, 0)).
  { unfold DS_NLTrans_F.calculate_position.
    cbn [scenario_nozzle nz location offset theta elevation].
    eval_strings. cbn [bind]. apply Ok_triple; ring. }
  split; [exact HV |]. split; [| split; [exact HDS |]].
  - unfold NLTrans_V.transform_nozzle_loads. rewrite HV. cbn [bind].
    cbn [scenario_nozzle nz location theta P V1 V2 Vc VL].
    eval_strings. rewrite radians_0, sin_0, cos_0.
    f_equal. f_equal; ring.
  - unfold DS_NLTrans_F.transform_loads. rewrite HDS. cbn [bind].
    cbn [scenario_nozzle nz location theta P V1 V2 Vc VL].
    eval_strings. rewrite radians_0, sin_0, cos_0.
    f_equal. f_equal; ring.
Qed.

(** ** The two variants on the shell (C9) *)

(** C9: for a nozzle whose location is ["Shell"], [calculate_position] and
    [transform_loads] of DS_NLTrans_F.py return exactly what
    [calculate_position] and [transform_nozzle_loads] of NLTrans_V.0sm.py
    return; the position is [(offset sin th, supportHeight + elevation,
    -offset cos th)] and never raises. *)
Theorem C9_shell_variants_agree (n : nozzle) (support_height Rad L : R) :
  location (nz n) = "Shell" ->
  let th := radians (theta (nz n)) in
  let pos := (offset (nz n) * sin th,
              support_height + elevation (nz n),
              - offset (nz n) * cos th) in
  NLTrans_V.calculate_position (nz n) support_height Rad L = Ok pos /\
  DS_NLTrans_F.calculate_position (nz n) support_height Rad L = Ok pos /\
  (exists g,
      NLTrans_V.transform_nozzle_loads n support_height Rad L = Ok g /\
      DS_NLTrans_F.transform_loads n support_height Rad L = Ok g) /\
  DS_NLTrans_F.calculate_position (nz n) support_height Rad L
  = NLTrans_V.calculate_position (nz n) support_height Rad L /\
  DS_NLTrans_F.transform_loads n support_height Rad L
  = NLTrans_V.transform_nozzle_loads n support_height Rad L.
Proof.
  intros Hloc th pos.
  assert (HV : NLTrans_V.calculate_position (nz n) support_height Rad L
               = Ok pos).
  { unfold NLTrans_V.calculate_position. cbv zeta. rewrite Hloc.
    eval_strings. reflexivity. }
  assert (HDS : DS_NLTrans_F.calculate_position (nz n) support_height Rad L
                = Ok pos).
  { unfold DS_NLTrans_F.calculate_position. cbv zeta. rewrite Hloc.
    eval_strings. reflexivity. }
  assert (Ht : DS_NLTrans_F.transform_loads n support_height Rad L
               = NLTrans_V.transform_nozzle_loads n support_height Rad L).
  { unfold DS_NLTrans_F.transform_loads, NLTrans_V.transform_nozzle_loads.
    rewrite HV, HDS, Hloc. eval_strings. reflexivity. }
  split; [exact HV |]. split; [exact HDS |].
  split; [| split; [rewrite HV; exact HDS | exact Ht]].
  rewrite Ht. unfold NLTrans_V.transform_nozzle_loads.
  rewrite HV, Hloc. subst pos. cbn [bind]. eval_strings.
  eexists. split; reflexivity.
Qed.

Lemma C9_shell_variants_agree_witness :
  DS_NLTrans_F.calculate_position (nz scenario_nozzle) 0 1 10
  = NLTrans_V.calculate_position (nz scenario_nozzle) 0 1 10 /\
  DS_NLTrans_F.transform_loads scenario_nozzle 0 1 10
  = NLTrans_V.transform_nozzle_loads scenario_nozzle 0 1 10.
Proof.
  destruct (C9_shell_variants_agree scenario_nozzle 0 1 10 eq_refl)
    as (_ & _ & _ & Hp & Ht).
  split; assumption.
Defined.

(** ** Offsets inside the bound of the input form (C10) *)

Lemma V_head_position_resolves (c : component) (s : HeadShape) (e : HeadEnd)
    (support_height Rad L : R) :
  location c = head_location s e ->
  0 < Rad ->
  0 <= offset c <= Rad ->
  (s = Ellipsoidal -> get_aspect_ratio c <> 0) ->
  exists p, NLTrans_V.calculate_position c support_height Rad L = Ok p.
Proof.
  intros Hloc HR Hoff Har.
  assert (Hr : Rad <> 0) by lra.
  destruct s.
  - destruct e; at_head Hloc;
      (destruct (Req_dec_T (offset c) 0); cbn [bind];
       [| rewrite (math_sqrt_nonneg _ (sqrt_diff_squares_nonneg _ _ Hoff))];
       eexists; reflexivity).
  - specialize (Har eq_refl).
    destruct e; at_head Hloc;
      rewrite (float_div_nonzero _ _ Har); cbn [bind];
      (destruct (Req_dec_T (offset c) 0); cbn [bind];
       [| rewrite (float_div_nonzero _ _ (square_nonzero _ Hr)); cbn [bind];
          rewrite (math_sqrt_nonneg _ (ratio_at_most_one _ _ HR Hoff))];
       eexists; reflexivity).
Qed.





(** ** Totals (C4, C7) *)

Lemma display_results_frame_rows {A : Type} (zero : A) (add : A -> A -> A)
    (ns : list (NLTrans_V.ResultRow A))
    (ss : option (list (NLTrans_V.ResultRow A))) :
  (if NLTrans_V.truthy ss
   then ns ++ match ss with Some l => l | None => [] end
   else ns) = all_rows ns ss.
Proof.
  unfold all_rows. destruct ss as [[| r l] |]; cbn [NLTrans_V.truthy];
    rewrite ?app_nil_r; reflexivity.
Qed.

Lemma display_results_empty {A : Type} (zero : A) (add : A -> A -> A)
    (ns : list (NLTrans_V.ResultRow A))
    (ss : option (list (NLTrans_V.ResultRow A))) :
  all_rows ns ss = [] ->
  NLTrans_V.display_results zero add ns ss = Raise (KeyError "Fx").
Proof.
  intros Hall. unfold NLTrans_V.display_results. cbv zeta.
  rewrite (display_results_frame_rows zero add), Hall. reflexivity.
Qed.

Lemma display_results_nonempty (ns : list (NLTrans_V.ResultRow R))
    (ss : option (list (NLTrans_V.ResultRow R))) :
  all_rows ns ss <> [] ->
  NLTrans_V.display_results 0 Rplus ns ss
  = Ok (all_rows ns ss ++ [totals_row (all_rows ns ss)]).
Proof.
  intros Hall. unfold NLTrans_V.display_results. cbv zeta.
  rewrite (display_results_frame_rows 0 Rplus).
  destruct (all_rows ns ss) as [| r rows]; [contradiction |].
  reflexivity.
Qed.

Lemma fold_left_Rplus_perm (xs ys : list R) :
  Permutation xs ys -> forall a, fold_left Rplus xs a = fold_left Rplus ys a.
Proof.
  induction 1 as [| x xs ys _ IH | x y xs | xs ys zs _ IH1 _ IH2];
    intros a; cbn [fold_left].
  - reflexivity.
  - apply IH.
  - f_equal. ring.
  - rewrite IH1. apply IH2.
Qed.

Lemma column_total_perm (k : NLTrans_V.LoadColumn)
    (rows rows' : list (NLTrans_V.ResultRow R)) :
  Permutation rows rows' -> column_total k rows = column_total k rows'.
Proof.
  intros Hp. unfold column_total.
  apply fold_left_Rplus_perm, Permutation_map, Hp.
Qed.

Lemma total_of_snoc {A : Type} (rows : list (NLTrans_V.ResultRow A))
    (t : NLTrans_V.ResultRow A) :
  total_of (Ok (rows ++ [t])) = Some (NLTrans_V.row_load t).
Proof.
  unfold total_of. rewrite rev_app_distr. reflexivity.
Qed.

Lemma display_results_total_perm
    (ns ns' : list (NLTrans_V.ResultRow R))
    (ss ss' : option (list (NLTrans_V.ResultRow R))) :
  Permutation (all_rows ns ss) (all_rows ns' ss') ->
  total_of (NLTrans_V.display_results 0 Rplus ns ss)
  = total_of (NLTrans_V.display_results 0 Rplus ns' ss').
Proof.
  intros Hp.
  destruct (all_rows ns ss) as [| r rows] eqn:Hall.
  - apply Permutation_nil in Hp.
    rewrite (display_results_empty 0 Rplus ns ss Hall).
    rewrite (display_results_empty 0 Rplus ns' ss' Hp). reflexivity.
  - assert (Hne : all_rows ns ss <> []) by (rewrite Hall; discriminate).
    assert (Hne' : all_rows ns' ss' <> []).
    { intros Hnil. rewrite Hnil in Hp. apply Permutation_sym in Hp.
      apply Permutation_nil in Hp. discriminate. }
    rewrite (display_results_nonempty ns ss Hne).
    rewrite (display_results_nonempty ns' ss' Hne').
    rewrite !total_of_snoc. rewrite Hall. cbn [totals_row NLTrans_V.row_load].
    f_equal. f_equal; apply column_total_perm; exact Hp.
Qed.

Lemma for_each_perm {X Y : Type} (f : X -> result Y) (l l' : list X) :
  Permutation l l' ->
  same_up_to_order (NLTrans_V.for_each f l) (NLTrans_V.for_each f l').
Proof.
  induction 1 as [| x l l' _ IH | x y l | l1 l2 l3 _ IH1 _ IH2];
    cbn [NLTrans_V.for_each].
  - apply perm_nil.
  - destruct (f x); cbn [bind]; [| exact I].
    destruct (NLTrans_V.for_each f l), (NLTrans_V.for_each f l');
      cbn [bind same_up_to_order] in *; auto.
  - destruct (f x), (f y); cbn [bind]; try exact I.
    destruct (NLTrans_V.for_each f l); cbn [bind same_up_to_order];
      [apply perm_swap | exact I].
  - destruct (NLTrans_V.for_each f l1), (NLTrans_V.for_each f l2),
      (NLTrans_V.for_each f l3); cbn [same_up_to_order] in *;
      try contradiction; try exact I.
    eapply Permutation_trans; eassumption.
Qed.

Lemma add_load_swap (t a b : GlobalLoad R) :
  DS_NLTrans_F.add_load Rplus (DS_NLTrans_F.add_load Rplus t a) b
  = DS_NLTrans_F.add_load Rplus (DS_NLTrans_F.add_load Rplus t b) a.
Proof.
  unfold DS_NLTrans_F.add_load. cbn [Fx Fy Fz Mx My Mz]. f_equal; ring.
Qed.

Lemma main_loop_perm {N : Type} (f : N -> result (GlobalLoad R))
    (l l' : list N) :
  Permutation l l' ->
  forall t,
    value_of (DS_NLTrans_F.main_loop Rplus f l t)
    = value_of (DS_NLTrans_F.main_loop Rplus f l' t).
Proof.
  induction 1 as [| x l l' _ IH | x y l | l1 l2 l3 _ IH1 _ IH2];
    intros t; cbn [DS_NLTrans_F.main_loop].
  - reflexivity.
  - destruct (f x); cbn [bind]; [apply IH | reflexivity].
  - destruct (f x), (f y); cbn [bind value_of]; try reflexivity.
    rewrite add_load_swap. reflexivity.
  - rewrite IH1. apply IH2.
Qed.

(** On the empty list the loop of DS_NLTrans_F.py leaves the six totals at
    their initial 0.0. *)
Lemma DS_zero_attachments_total (support_height Rad L : R) :
  DS_NLTrans_F.main_calculate [] support_height Rad L
  = Ok (mkLoad 0 0 0 0 0 0).
Proof. reflexivity. Qed.

(** C4 fails on NLTrans_V.0sm.py: with no nozzle and no pipe support the
    frame built by [display_results] has no column, [df['Fx']] raises
    [KeyError], and no ['TOTAL'] row is produced. *)
Theorem C4_zero_attachments_KeyError (support_height Rad L : R) :
  NLTrans_V.display_results 0 Rplus [] (Some []) = Raise (KeyError "Fx") /\
  NLTrans_V.display_results 0 Rplus [] None = Raise (KeyError "Fx") /\
  NLTrans_V.main_calculate [] [] support_height Rad L
  = Raise (KeyError "Fx") /\
  total_of (NLTrans_V.main_calculate [] [] support_height Rad L) = None.
Proof. repeat split; reflexivity. Qed.

(** C7, as stated, fails over floating point: for three shell nozzles with
    [VL = 2^53], [1] and [-2^53] the total [Fy] is 0.0 in that order and 1.0
    with the last two swapped, in the loop of DS_NLTrans_F.py and in the
    column sums of [display_results] alike (three rows, which are added in
    row order); the two totals are not within a relative tolerance of
    1e-9. *)
Lemma C7_float_total_depends_on_order :
  let big := 9007199254740992%float in
  let order1 := [big; 1%float; PrimFloat.opp big] in
  let order2 := [big; PrimFloat.opp big; 1%float] in
  Permutation order1 order2 /\
  option_map Fy
    (value_of (DS_NLTrans_F.main_loop PrimFloat.add Ok
                 (map float_shell_load order1)
                 (DS_NLTrans_F.zero_load 0%float)))
  = Some 0%float /\
  option_map Fy
    (value_of (DS_NLTrans_F.main_loop PrimFloat.add Ok
                 (map float_shell_load order2)
                 (DS_NLTrans_F.zero_load 0%float)))
  = Some 1%float /\
  option_map Fy
    (total_of (NLTrans_V.display_results 0%float PrimFloat.add
                 (map (float_row "N") order1) None))
  = Some 0%float /\
  option_map Fy
    (total_of (NLTrans_V.display_results 0%float PrimFloat.add
                 (map (float_row "N") order2) None))
  = Some 1%float /\
  isclose rel_tol_1e9 0%float 1%float = false.
Proof.
  cbv zeta. split; [apply perm_skip, perm_swap |].
  repeat split; vm_compute; reflexivity.
Qed.

(** C7 (amended): over the reals the total does not depend on the order of
    the attachments.  Permuting the nozzles and the pipe supports leaves
    the ['TOTAL'] row of NLTrans_V.0sm.py and the six totals of
    DS_NLTrans_F.py unchanged (and a run that raises still raises). *)
Theorem C7_total_permutation_invariant (ns ns' : list nozzle)
    (ss ss' : list support) (support_height Rad L : R) :
  Permutation ns ns' ->
  Permutation ss ss' ->
  total_of (NLTrans_V.main_calculate ns ss support_height Rad L)
  = total_of (NLTrans_V.main_calculate ns' ss' support_height Rad L) /\
  value_of (DS_NLTrans_F.main_calculate ns support_height Rad L)
  = value_of (DS_NLTrans_F.main_calculate ns' support_height Rad L).
Proof.
  intros Hn Hs. split.
  - unfold NLTrans_V.main_calculate.
    pose proof (for_each_perm
                  (fun n =>
                     r <- NLTrans_V.transform_nozzle_loads n support_height
                            Rad L ;;
                     Ok (NLTrans_V.mkRow (nz_tag_no n) (nz_type n) r))
                  ns ns' Hn) as HN.
    pose proof (for_each_perm
                  (fun s =>
                     r <- NLTrans_V.transform_support_loads s support_height
                            Rad L ;;
                     Ok (NLTrans_V.mkRow (sp_tag_no s) (sp_type s) r))
                  ss ss' Hs) as HS.
    destruct (NLTrans_V.for_each _ ns) as [nr | ?],
             (NLTrans_V.for_each _ ns') as [nr' | ?];
      cbn [same_up_to_order] in HN; try contradiction;
      cbn [bind]; [| reflexivity].
    destruct (NLTrans_V.for_each _ ss) as [sr | ?],
             (NLTrans_V.for_each _ ss') as [sr' | ?];
      cbn [same_up_to_order] in HS; try contradiction;
      cbn [bind]; [| reflexivity].
    apply display_results_total_perm. unfold all_rows.
    apply Permutation_app; assumption.
  - unfold DS_NLTrans_F.main_calculate. apply main_loop_perm. exact Hn.
Qed.

Lemma C7_total_permutation_invariant_witness :
  total_of (NLTrans_V.main_calculate [scenario_nozzle; bottom_apex_nozzle] []
              0 1 10)
  = total_of (NLTrans_V.main_calculate [bottom_apex_nozzle; scenario_nozzle] []
                0 1 10) /\
  value_of (DS_NLTrans_F.main_calculate [scenario_nozzle; bottom_apex_nozzle]
              0 1 10)
  = value_of (DS_NLTrans_F.main_calculate [bottom_apex_nozzle; scenario_nozzle]
                0 1 10).
Proof.
  apply (C7_total_permutation_invariant
           [scenario_nozzle; bottom_apex_nozzle]
           [bottom_apex_nozzle; scenario_nozzle] [] [] 0 1 10).
  - apply perm_swap.
  - apply perm_nil.
Defined.

(** * Further properties of the code *)

(** ** How a location string is read *)

Lemma not_shell_eqb (loc : string) :
  loc <> "Shell" -> (loc =? "Shell")%string = false.
Proof. intros H. apply String.eqb_neq. exact H. Qed.

(** X1: a location other than ["Shell"] is read through two substring
    tests only.  Whatever the string, [calculate_position] treats it as the
    head it reads: hemispherical if it contains ["Hemispherical"] and
    ellipsoidal otherwise, top if it contains ["Top"] and bottom otherwise.
    In both variants. *)
Theorem location_read_as_head (c : component) (support_height Rad L : R) :
  location c <> "Shell" ->
  let head := head_location (shape_read (location c))
                            (end_read (location c)) in
  NLTrans_V.calculate_position c support_height Rad L
  = NLTrans_V.calculate_position (with_location head c) support_height Rad L
  /\
  DS_NLTrans_F.calculate_position c support_height Rad L
  = DS_NLTrans_F.calculate_position (with_location head c)
      support_height Rad L.
Proof.
  intros Hns head. subst head. apply not_shell_eqb in Hns.
  unfold NLTrans_V.calculate_position, DS_NLTrans_F.calculate_position,
    shape_read, end_read, get_aspect_ratio.
  cbv zeta. cbn [with_location location offset elevation theta aspect_ratio].
  rewrite Hns.
  destruct (str_in "Hemispherical" (location c)),
           (str_in "Top" (location c));
    cbn [head_location]; eval_strings; split; reflexivity.
Qed.

Lemma location_read_as_head_witness :
  NLTrans_V.calculate_position
    (mkComponent "bottom" (1 / 2) 0 0 (Some 2)) 0 1 10
  = NLTrans_V.calculate_position
      (mkComponent "Ellipsoidal Bottom Head" (1 / 2) 0 0 (Some 2)) 0 1 10.
Proof.
  assert (Hns : location (mkComponent "bottom" (1 / 2) 0 0 (Some 2))
                <> "Shell") by (cbn [location]; discriminate).
  exact (proj1 (location_read_as_head
                  (mkComponent "bottom" (1 / 2) 0 0 (Some 2)) 0 1 10 Hns)).
Defined.

(** ** The head surface in NLTrans_V.0sm.py *)








(** ** The horizontal plane *)

Lemma V_position_XZ (c : component) (support_height Rad L X Y Z : R) :
  NLTrans_V.calculate_position c support_height Rad L = Ok (X, Y, Z) ->
  X = offset c * sin (radians (theta c)) /\
  Z = - offset c * cos (radians (theta c)).
Proof.
  unfold NLTrans_V.calculate_position. cbv zeta.
  match goal with |- bind ?m _ = _ -> _ => destruct m end;
    cbn [bind]; intros H; [| discriminate].
  injection H as <- _ <-. split; reflexivity.
Qed.

Lemma DS_position_XZ (c : component) (support_height Rad L X Y Z : R) :
  DS_NLTrans_F.calculate_position c support_height Rad L = Ok (X, Y, Z) ->
  X = offset c * sin (radians (theta c)) /\
  Z = - offset c * cos (radians (theta c)).
Proof.
  unfold DS_NLTrans_F.calculate_position. cbv zeta.
  match goal with |- bind ?m _ = _ -> _ => destruct m end;
    cbn [bind]; intros H; [| discriminate].
  injection H as <- _ <-. split; reflexivity.
Qed.

(** X4: whatever the location, a position returned by either variant is
    never farther from the vessel axis than [offset] in either horizontal
    coordinate, [|X| <= |offset|] and [|Z| <= |offset|], and at [theta = 0]
    it is exactly [X = 0], [Z = -offset]: 0 degrees points along -Z. *)
Theorem horizontal_position_bounds (c : component)
    (support_height Rad L X Y Z : R) :
  NLTrans_V.calculate_position c support_height Rad L = Ok (X, Y, Z) \/
  DS_NLTrans_F.calculate_position c support_height Rad L = Ok (X, Y, Z) ->
  Rabs X <= Rabs (offset c) /\
  Rabs Z <= Rabs (offset c) /\
  (theta c = 0 -> X = 0 /\ Z = - offset c).
Proof.
  intros H.
  assert (HXZ : X = offset c * sin (radians (theta c)) /\
                Z = - offset c * cos (radians (theta c))).
  { destruct H as [H | H];
      [eapply V_position_XZ | eapply DS_position_XZ]; exact H. }
  destruct HXZ as [-> ->].
  pose proof (Rabs_pos (offset c)) as Hpos.
  pose proof (Rabs_le _ _ (SIN_bound (radians (theta c)))) as Hs.
  pose proof (Rabs_le _ _ (COS_bound (radians (theta c)))) as Hc.
  split; [| split].
  - rewrite Rabs_mult. rewrite <- (Rmult_1_r (Rabs (offset c))) at 2.
    apply Rmult_le_compat_l; assumption.
  - rewrite Rabs_mult, Rabs_Ropp.
    rewrite <- (Rmult_1_r (Rabs (offset c))) at 2.
    apply Rmult_le_compat_l; assumption.
  - intros ->. rewrite radians_0, sin_0, cos_0. split; ring.
Qed.

Lemma horizontal_position_bounds_witness :
  exists X Y Z,
    NLTrans_V.calculate_position
      (sp (V_support_record "PS-1" 5 0 3 10 20 30)) 0 1 10 = Ok (X, Y, Z) /\
    X = 0 /\ Z = - 3.
Proof.
  assert (Hp : NLTrans_V.calculate_position
                 (sp (V_support_record "PS-1" 5 0 3 10 20 30)) 0 1 10
               = Ok (3 * sin (radians 0), 0 + 5, - 3 * cos (radians 0))).
  { unfold NLTrans_V.calculate_position.
    cbn [V_support_record sp location offset theta elevation].
    eval_strings. reflexivity. }
  do 3 eexists. split; [exact Hp |].
  exact (proj2 (proj2 (horizontal_position_bounds
                         (sp (V_support_record "PS-1" 5 0 3 10 20 30))
                         0 1 10 _ _ _ (or_introl Hp))) eq_refl).
Defined.

(** ** The load transformation *)

Lemma V_scenario_loads :
  NLTrans_V.transform_nozzle_loads scenario_nozzle 0 1 10
  = Ok (mkLoad 0 0 (-100) (-500) 0 0).
Proof.
  assert (HV : NLTrans_V.calculate_position (nz scenario_nozzle) 0 1 10
               = Ok (0, 5, 0)).
  { unfold NLTrans_V.calculate_position.
    cbn [scenario_nozzle nz location offset theta elevation].
    eval_strings. cbn [bind]. apply Ok_triple; ring. }
  unfold NLTrans_V.transform_nozzle_loads. rewrite HV. cbn [bind].
  cbn [scenario_nozzle nz location theta P V1 V2 Vc VL].
  eval_strings. rewrite radians_0, sin_0, cos_0.
  f_equal. f_equal; ring.
Qed.

(** ** Shell attachments *)

Lemma V_shell_position (c : component) (support_height Rad L : R) :
  location c = "Shell" ->
  NLTrans_V.calculate_position c support_height Rad L
  = Ok (offset c * sin (radians (theta c)),
        support_height + elevation c,
        - offset c * cos (radians (theta c))).
Proof.
  intros Hloc. unfold NLTrans_V.calculate_position. cbv zeta.
  rewrite Hloc. eval_strings. reflexivity.
Qed.

Lemma DS_shell_position (c : component) (support_height Rad L : R) :
  location c = "Shell" ->
  DS_NLTrans_F.calculate_position c support_height Rad L
  = Ok (offset c * sin (radians (theta c)),
        support_height + elevation c,
        - offset c * cos (radians (theta c))).
Proof.
  intros Hloc. unfold DS_NLTrans_F.calculate_position. cbv zeta.
  rewrite Hloc. eval_strings. reflexivity.
Qed.

(** X10: a pipe support (always on the shell) is transformed like the shell
    nozzle that carries its radial load as [P], its circumferential load as
    [Vc] and its vertical load as [VL]; a shell attachment never raises,
    whatever its offset, elevation, angle and loads. *)
Theorem V_support_as_shell_nozzle (s : support) (support_height Rad L : R) :
  location (sp s) = "Shell" ->
  NLTrans_V.transform_support_loads s support_height Rad L
  = NLTrans_V.transform_nozzle_loads (nozzle_of_support s)
      support_height Rad L /\
  exists g, NLTrans_V.transform_support_loads s support_height Rad L = Ok g.
Proof.
  intros Hloc.
  unfold NLTrans_V.transform_support_loads, NLTrans_V.transform_nozzle_loads.
  cbn [nozzle_of_support nz P V1 V2 Vc VL].
  rewrite (V_shell_position _ _ _ _ Hloc), Hloc. cbn [bind].
  eval_strings. split; [reflexivity | eexists; reflexivity].
Qed.

Lemma V_support_as_shell_nozzle_witness :
  NLTrans_V.transform_support_loads
    (V_support_record "PS-1" 5 90 3 10 20 30) 0 1 10
  = NLTrans_V.transform_nozzle_loads
      (nozzle_of_support (V_support_record "PS-1" 5 90 3 10 20 30)) 0 1 10.
Proof.
  exact (proj1 (V_support_as_shell_nozzle
                  (V_support_record "PS-1" 5 90 3 10 20 30) 0 1 10 eq_refl)).
Defined.

(** X11: an attachment on the vessel axis ([offset = 0], as the form gives
    every shell nozzle and every apex nozzle) has [X = Z = 0]; its loads
    have no moment about the vertical axis, [My = 0], and [Mx = Y Fz],
    [Mz = -Y Fx].  For nozzles in both variants and for pipe supports. *)
Theorem on_axis_moments (support_height Rad L : R) :
  (forall n g,
      offset (nz n) = 0 ->
      NLTrans_V.transform_nozzle_loads n support_height Rad L = Ok g ->
      exists Y,
        NLTrans_V.calculate_position (nz n) support_height Rad L
        = Ok (0, Y, 0) /\
        Mx g = Y * Fz g /\ My g = 0 /\ Mz g = - Y * Fx g) /\
  (forall s g,
      offset (sp s) = 0 ->
      NLTrans_V.transform_support_loads s support_height Rad L = Ok g ->
      exists Y,
        NLTrans_V.calculate_position (sp s) support_height Rad L
        = Ok (0, Y, 0) /\
        Mx g = Y * Fz g /\ My g = 0 /\ Mz g = - Y * Fx g) /\
  (forall n g,
      offset (nz n) = 0 ->
      DS_NLTrans_F.transform_loads n support_height Rad L = Ok g ->
      exists Y,
        DS_NLTrans_F.calculate_position (nz n) support_height Rad L
        = Ok (0, Y, 0) /\
        Mx g = Y * Fz g /\ My g = 0 /\ Mz g = - Y * Fx g).
Proof.
  split; [| split].
  - intros n g H0 H.
    destruct (NLTrans_V.calculate_position (nz n) support_height Rad L)
      as [[[X Y] Z] | e] eqn:Hp;
      [| unfold NLTrans_V.transform_nozzle_loads in H; rewrite Hp in H;
         discriminate H].
    destruct (V_position_XZ _ _ _ _ _ _ _ Hp) as [HX HZ].
    rewrite H0 in HX, HZ.
    assert (HX0 : X = 0) by (rewrite HX; ring).
    assert (HZ0 : Z = 0) by (rewrite HZ; ring).
    clear HX HZ. subst X Z.
    exists Y. split; [reflexivity |].
    unfold NLTrans_V.transform_nozzle_loads in H. rewrite Hp in H.
    cbn [bind] in H.
    destruct (str_in "Head" (location (nz n)));
      [destruct (str_in "Top" (location (nz n))) |];
      injection H as H; subst g; cbn [Fx Fy Fz Mx My Mz];
      repeat split; ring.
  - intros s g H0 H.
    destruct (NLTrans_V.calculate_position (sp s) support_height Rad L)
      as [[[X Y] Z] | e] eqn:Hp;
      [| unfold NLTrans_V.transform_support_loads in H; rewrite Hp in H;
         discriminate H].
    destruct (V_position_XZ _ _ _ _ _ _ _ Hp) as [HX HZ].
    rewrite H0 in HX, HZ.
    assert (HX0 : X = 0) by (rewrite HX; ring).
    assert (HZ0 : Z = 0) by (rewrite HZ; ring).
    clear HX HZ. subst X Z.
    exists Y. split; [reflexivity |].
    unfold NLTrans_V.transform_support_loads in H. rewrite Hp in H.
    cbn [bind] in H. injection H as H; subst g; cbn [Fx Fy Fz Mx My Mz].
    repeat split; ring.
  - intros n g H0 H.
    destruct (DS_NLTrans_F.calculate_position (nz n) support_height Rad L)
      as [[[X Y] Z] | e] eqn:Hp;
      [| unfold DS_NLTrans_F.transform_loads in H; rewrite Hp in H;
         discriminate H].
    destruct (DS_position_XZ _ _ _ _ _ _ _ Hp) as [HX HZ].
    rewrite H0 in HX, HZ.
    assert (HX0 : X = 0) by (rewrite HX; ring).
    assert (HZ0 : Z = 0) by (rewrite HZ; ring).
    clear HX HZ. subst X Z.
    exists Y. split; [reflexivity |].
    unfold DS_NLTrans_F.transform_loads in H. rewrite Hp in H.
    cbn [bind] in H.
    destruct (str_in "Head" (location (nz n)));
      injection H as H; subst g; cbn [Fx Fy Fz Mx My Mz];
      repeat split; ring.
Qed.

Lemma on_axis_moments_witness :
  exists Y,
    NLTrans_V.calculate_position (nz scenario_nozzle) 0 1 10 = Ok (0, Y, 0) /\
    Mx (mkLoad 0 0 (-100) (-500) 0 0)
    = Y * Fz (mkLoad 0 0 (-100) (-500) 0 0) /\
    My (mkLoad 0 0 (-100) (-500) 0 0) = 0 /\
    Mz (mkLoad 0 0 (-100) (-500) 0 0)
    = - Y * Fx (mkLoad 0 0 (-100) (-500) 0 0).
Proof.
  exact (proj1 (on_axis_moments 0 1 10) scenario_nozzle _ eq_refl
           V_scenario_loads).
Defined.

(** ** The results table and the totals *)

Lemma for_each_rows {X G Y : Type} (t : X -> result G) (mk : X -> G -> Y)
    (xs : list X) (gs : list G) :
  Forall2 (fun x g => t x = Ok g) xs gs ->
  NLTrans_V.for_each (fun x => r <- t x ;; Ok (mk x r)) xs
  = Ok (map (fun p => mk (fst p) (snd p)) (combine xs gs)).
Proof.
  induction 1 as [| x g xs gs Hx _ IH]; cbn [NLTrans_V.for_each combine map].
  - reflexivity.
  - rewrite Hx. cbn [bind]. rewrite IH. reflexivity.
Qed.

Lemma for_each_rows_cases {X G Y : Type} (t : X -> result G)
    (mk : X -> G -> Y) (xs : list X) :
  (exists gs, Forall2 (fun x g => t x = Ok g) xs gs) \/
  (Exists (fun x => raised (t x)) xs /\
   raised (NLTrans_V.for_each (fun x => r <- t x ;; Ok (mk x r)) xs)).
Proof.
  induction xs as [| x xs IH].
  - left. exists []. constructor.
  - cbn [NLTrans_V.for_each].
    destruct (t x) as [g | e] eqn:Hx; cbn [bind].
    + destruct IH as [[gs Hgs] | [Hex Hr]].
      * left. exists (g :: gs). constructor; assumption.
      * right. split; [apply Exists_cons_tl; exact Hex |].
        destruct (NLTrans_V.for_each _ xs); [contradiction | exact I].
    + right. split; [| exact I].
      apply Exists_cons_hd. rewrite Hx. exact I.
Qed.

Lemma all_ok_none_raised {X G : Type} (t : X -> result G)
    (xs : list X) (gs : list G) :
  Forall2 (fun x g => t x = Ok g) xs gs ->
  ~ Exists (fun x => raised (t x)) xs.
Proof.
  induction 1 as [| x g xs gs Hx _ IH]; intros Hex; inversion Hex; subst.
  - rewrite Hx in *. contradiction.
  - contradiction.
Qed.

(** X12: [display_results] only sees the concatenation of its two
    arguments.  Passing the pipe-support rows separately, appended to the
    nozzle rows, or not at all when there are none gives the same table or
    the same exception, over any arithmetic. *)
Theorem display_results_concat {A : Type} (zero : A) (add : A -> A -> A)
    (ns ss : list (NLTrans_V.ResultRow A)) :
  NLTrans_V.display_results zero add ns (Some ss)
  = NLTrans_V.display_results zero add (ns ++ ss) None /\
  NLTrans_V.display_results zero add ns (Some [])
  = NLTrans_V.display_results zero add ns None.
Proof.
  unfold NLTrans_V.display_results. cbv zeta.
  rewrite !(display_results_frame_rows zero add).
  unfold all_rows. rewrite !app_nil_r. split; reflexivity.
Qed.

Lemma V_main_rows (ns : list nozzle) (ss : list support)
    (gns gss : list (GlobalLoad R)) (support_height Rad L : R) :
  Forall2 (fun n g =>
             NLTrans_V.transform_nozzle_loads n support_height Rad L = Ok g)
          ns gns ->
  Forall2 (fun s g =>
             NLTrans_V.transform_support_loads s support_height Rad L = Ok g)
          ss gss ->
  ns <> [] \/ ss <> [] ->
  let rows := map (fun p => nozzle_row (fst p) (snd p)) (combine ns gns)
              ++ map (fun p => support_row (fst p) (snd p)) (combine ss gss) in
  NLTrans_V.main_calculate ns ss support_height Rad L
  = Ok (rows ++ [totals_row rows]).
Proof.
  intros Hn Hs Hne rows. subst rows.
  unfold NLTrans_V.main_calculate.
  rewrite (for_each_rows _ (fun n r => NLTrans_V.mkRow (nz_tag_no n)
                                         (nz_type n) r) ns gns Hn).
  cbn [bind].
  rewrite (for_each_rows _ (fun s r => NLTrans_V.mkRow (sp_tag_no s)
                                         (sp_type s) r) ss gss Hs).
  cbn [bind].
  apply display_results_nonempty.
  unfold all_rows. intros Hnil. apply app_eq_nil in Hnil.
  destruct Hnil as [Hn0 Hs0].
  destruct Hne as [Hne | Hne]; apply Hne.
  - inversion Hn; subst; [reflexivity | discriminate Hn0].
  - inversion Hs; subst; [reflexivity | discriminate Hs0].
Qed.

(** X13: when every nozzle and every pipe support resolves and there is at
    least one of them, [main] of NLTrans_V.0sm.py displays one row per
    nozzle in input order, each with its tag, its type and the loads its
    transformation returned, then one row per pipe support in input order,
    then exactly one row tagged ['TOTAL'] with an empty type. *)
Theorem V_main_rows_in_order (ns : list nozzle) (ss : list support)
    (gns gss : list (GlobalLoad R)) (support_height Rad L : R) :
  Forall2 (fun n g =>
             NLTrans_V.transform_nozzle_loads n support_height Rad L = Ok g)
          ns gns ->
  Forall2 (fun s g =>
             NLTrans_V.transform_support_loads s support_height Rad L = Ok g)
          ss gss ->
  ns <> [] \/ ss <> [] ->
  exists t,
    NLTrans_V.main_calculate ns ss support_height Rad L
    = Ok (map (fun p => nozzle_row (fst p) (snd p)) (combine ns gns)
          ++ map (fun p => support_row (fst p) (snd p)) (combine ss gss)
          ++ [t]) /\
    NLTrans_V.Tag_No t = "TOTAL" /\
    NLTrans_V.Type_ t = "".
Proof.
  intros Hn Hs Hne.
  pose proof (V_main_rows ns ss gns gss support_height Rad L Hn Hs Hne)
    as Hrows.
  cbv zeta in Hrows. rewrite <- app_assoc in Hrows.
  eexists. split; [exact Hrows |].
  split; reflexivity.
Qed.

Lemma V_main_rows_in_order_witness :
  exists t g,
    NLTrans_V.main_calculate [scenario_nozzle]
      [V_support_record "PS-1" 5 90 3 10 20 30] 0 1 10
    = Ok ([nozzle_row scenario_nozzle (mkLoad 0 0 (-100) (-500) 0 0)]
          ++ [support_row (V_support_record "PS-1" 5 90 3 10 20 30) g]
          ++ [t]) /\
    NLTrans_V.Tag_No t = "TOTAL" /\
    NLTrans_V.Type_ t = "".
Proof.
  assert (Hs : exists g,
             NLTrans_V.transform_support_loads
               (V_support_record "PS-1" 5 90 3 10 20 30) 0 1 10 = Ok g).
  { unfold NLTrans_V.transform_support_loads.
    rewrite (V_shell_position
               (sp (V_support_record "PS-1" 5 90 3 10 20 30)) 0 1 10
               eq_refl).
    eexists. reflexivity. }
  destruct Hs as [g Hg].
  destruct (V_main_rows_in_order [scenario_nozzle]
              [V_support_record "PS-1" 5 90 3 10 20 30]
              [mkLoad 0 0 (-100) (-500) 0 0] [g] 0 1 10) as (t & Ht & Htag).
  - constructor; [exact V_scenario_loads | constructor].
  - constructor; [exact Hg | constructor].
  - left. discriminate.
  - exists t, g. split; [exact Ht | exact Htag].
Defined.

Lemma cons_not_nil {X : Type} (x : X) (l : list X) : x :: l <> [].
Proof. discriminate. Qed.

(** X14: [main] of NLTrans_V.0sm.py fails exactly when some nozzle or some
    pipe support fails to transform, or when there is no attachment at
    all. *)
Theorem V_main_calculate_raises_iff (ns : list nozzle) (ss : list support)
    (support_height Rad L : R) :
  raised (NLTrans_V.main_calculate ns ss support_height Rad L) <->
  Exists (fun n => raised (NLTrans_V.transform_nozzle_loads n
                             support_height Rad L)) ns \/
  Exists (fun s => raised (NLTrans_V.transform_support_loads s
                             support_height Rad L)) ss \/
  (ns = [] /\ ss = []).
Proof.
  pose proof (for_each_rows_cases
                (fun n => NLTrans_V.transform_nozzle_loads n
                            support_height Rad L)
                (fun n r => NLTrans_V.mkRow (nz_tag_no n) (nz_type n) r)
                ns) as Hn.
  pose proof (for_each_rows_cases
                (fun s => NLTrans_V.transform_support_loads s
                            support_height Rad L)
                (fun s r => NLTrans_V.mkRow (sp_tag_no s) (sp_type s) r)
                ss) as Hs.
  destruct Hn as [[gns Hn] | [Hexn Hrn]].
  - destruct Hs as [[gss Hs] | [Hexs Hrs]].
    + destruct ns as [| n ns'].
      * destruct ss as [| s ss'].
        -- split; [intros _; right; right; split; reflexivity |].
           intros _. exact I.
        -- rewrite (V_main_rows [] (s :: ss') gns gss
                      support_height Rad L Hn Hs
                      (or_intror (cons_not_nil s ss'))).
           split; [contradiction |].
           intros [Hex | [Hex | [_ Hnil]]];
             [ exact (all_ok_none_raised _ _ _ Hn Hex)
             | exact (all_ok_none_raised _ _ _ Hs Hex)
             | discriminate Hnil ].
      * rewrite (V_main_rows (n :: ns') ss gns gss
                   support_height Rad L Hn Hs
                   (or_introl (cons_not_nil n ns'))).
        split; [contradiction |].
        intros [Hex | [Hex | [Hnil _]]];
          [ exact (all_ok_none_raised _ _ _ Hn Hex)
          | exact (all_ok_none_raised _ _ _ Hs Hex)
          | discriminate Hnil ].
    + split; [intros _; right; left; exact Hexs |].
      intros _. unfold NLTrans_V.main_calculate.
      rewrite (for_each_rows _ _ ns gns Hn). cbn [bind].
      destruct (NLTrans_V.for_each _ ss); [contradiction | exact I].
  - split; [intros _; left; exact Hexn |].
    intros _. unfold NLTrans_V.main_calculate.
    destruct (NLTrans_V.for_each _ ns); [contradiction | exact I].
Qed.

(** ** The running totals of DS_NLTrans_F.py *)

Lemma DS_main_loop_ok {N : Type} (f : N -> result (GlobalLoad R))
    (ns : list N) (gs : list (GlobalLoad R)) :
  Forall2 (fun n g => f n = Ok g) ns gs ->
  forall acc,
    DS_NLTrans_F.main_loop Rplus f ns acc = Ok (fold_left plus_load gs acc).
Proof.
  induction 1 as [| n g ns gs Hn _ IH]; intros acc;
    cbn [DS_NLTrans_F.main_loop fold_left].
  - reflexivity.
  - rewrite Hn. cbn [bind]. apply IH.
Qed.

Lemma DS_main_loop_cases {N : Type} (f : N -> result (GlobalLoad R))
    (ns : list N) :
  (exists gs, Forall2 (fun n g => f n = Ok g) ns gs) \/
  (Exists (fun n => raised (f n)) ns /\
   forall acc, raised (DS_NLTrans_F.main_loop Rplus f ns acc)).
Proof.
  induction ns as [| n ns IH].
  - left. exists []. constructor.
  - destruct (f n) as [g | e] eqn:Hn.
    + destruct IH as [[gs Hgs] | [Hex Hr]].
      * left. exists (g :: gs). constructor; assumption.
      * right. split; [apply Exists_cons_tl; exact Hex |].
        intros acc. cbn [DS_NLTrans_F.main_loop]. rewrite Hn. cbn [bind].
        apply Hr.
    + right. split.
      * apply Exists_cons_hd. rewrite Hn. exact I.
      * intros acc. cbn [DS_NLTrans_F.main_loop]. rewrite Hn. exact I.
Qed.

(** X15: [main] of DS_NLTrans_F.py adds the six components of each
    nozzle to the totals in input order, starting from zero: when every
    nozzle resolves it returns these running sums, and it raises exactly
    when some nozzle fails to transform. *)
Theorem DS_main_calculate_running_sums (ns : list nozzle)
    (support_height Rad L : R) :
  (forall gs,
      Forall2 (fun n g =>
                 DS_NLTrans_F.transform_loads n support_height Rad L = Ok g)
              ns gs ->
      DS_NLTrans_F.main_calculate ns support_height Rad L
      = Ok (sum_loads gs)) /\
  (raised (DS_NLTrans_F.main_calculate ns support_height Rad L) <->
   Exists (fun n => raised (DS_NLTrans_F.transform_loads n
                              support_height Rad L)) ns).
Proof.
  set (f := fun n => DS_NLTrans_F.transform_loads n support_height Rad L).
  assert (Hok : forall gs,
             Forall2 (fun n g => f n = Ok g) ns gs ->
             DS_NLTrans_F.main_calculate ns support_height Rad L
             = Ok (sum_loads gs)).
  { intros gs H. unfold DS_NLTrans_F.main_calculate.
    rewrite (DS_main_loop_ok f ns gs H). reflexivity. }
  split; [exact Hok |].
  destruct (DS_main_loop_cases f ns) as [[gs Hgs] | [Hex Hr]].
  - rewrite (Hok gs Hgs). split; [contradiction |].
    intros Hex. exact (all_ok_none_raised f ns gs Hgs Hex).
  - split; [intros _; exact Hex |]. intros _. apply Hr.
Qed.

Lemma DS_scenario_loads :
  DS_NLTrans_F.transform_loads scenario_nozzle 0 1 10
  = Ok (mkLoad 0 0 (-100) (-500) 0 0).
Proof.
  assert (HDS : DS_NLTrans_F.calculate_position (nz scenario_nozzle) 0 1 10
                = Ok (0, 5, 0)).
  { unfold DS_NLTrans_F.calculate_position.
    cbn [scenario_nozzle nz location offset theta elevation].
    eval_strings. cbn [bind]. apply Ok_triple; ring. }
  unfold DS_NLTrans_F.transform_loads. rewrite HDS. cbn [bind].
  cbn [scenario_nozzle nz location theta P V1 V2 Vc VL].
  eval_strings. rewrite radians_0, sin_0, cos_0.
  f_equal. f_equal; ring.
Qed.

Lemma DS_main_calculate_running_sums_witness :
  DS_NLTrans_F.main_calculate [scenario_nozzle; scenario_nozzle] 0 1 10
  = Ok (sum_loads [mkLoad 0 0 (-100) (-500) 0 0;
                   mkLoad 0 0 (-100) (-500) 0 0]).
Proof.
  apply (proj1 (DS_main_calculate_running_sums
                  [scenario_nozzle; scenario_nozzle] 0 1 10)).
  repeat constructor; exact DS_scenario_loads.
Defined.

(** ** Inputs within the bounds of the forms *)

Lemma DS_head_position_resolves (c : component) (s : HeadShape) (e : HeadEnd)
    (support_height Rad L : R) :
  location c = head_location s e ->
  0 < Rad ->
  0 <= offset c <= Rad ->
  (s = Ellipsoidal -> get_aspect_ratio c <> 0) ->
  exists p, DS_NLTrans_F.calculate_position c support_height Rad L = Ok p.
Proof.
  intros Hloc HR Hoff Har.
  assert (Hr : Rad <> 0) by lra.
  destruct s.
  - destruct e; at_head Hloc;
      rewrite (math_sqrt_nonneg _ (sqrt_diff_squares_nonneg _ _ Hoff));
      eexists; reflexivity.
  - specialize (Har eq_refl).
    destruct e; at_head Hloc;
      rewrite (float_div_nonzero _ _ Har); cbn [bind];
      rewrite (float_div_nonzero _ _ (square_nonzero _ Hr)); cbn [bind];
      rewrite (math_sqrt_nonneg _ (ratio_at_most_one _ _ HR Hoff));
      eexists; reflexivity.
Qed.

Lemma V_loads_of_position (n : nozzle) (support_height Rad L : R) :
  (exists p, NLTrans_V.calculate_position (nz n) support_height Rad L = Ok p) ->
  exists g, NLTrans_V.transform_nozzle_loads n support_height Rad L = Ok g.
Proof.
  intros [[[X Y] Z] Hp]. unfold NLTrans_V.transform_nozzle_loads.
  rewrite Hp. cbn [bind].
  destruct (str_in "Head" (location (nz n)));
    [destruct (str_in "Top" (location (nz n))) |]; eexists; reflexivity.
Qed.

Lemma DS_loads_of_position (n : nozzle) (support_height Rad L : R) :
  (exists p,
      DS_NLTrans_F.calculate_position (nz n) support_height Rad L = Ok p) ->
  exists g, DS_NLTrans_F.transform_loads n support_height Rad L = Ok g.
Proof.
  intros [[[X Y] Z] Hp]. unfold DS_NLTrans_F.transform_loads.
  rewrite Hp. cbn [bind].
  destruct (str_in "Head" (location (nz n))); eexists; reflexivity.
Qed.

(** The component of a record built by either form, for a head option:
    the offset is within the radius and the aspect ratio is not zero. *)
Lemma form_head_component (s : HeadShape) (e : HeadEnd)
    (Rad L w_elevation w_offset w_theta w_aspect : R) :
  widgets_in_bounds (head_location s e) Rad L w_elevation w_offset w_aspect ->
  let c := mkComponent (head_location s e) w_offset 0 w_theta
             (Some (match s with
                    | Hemispherical => 2
                    | Ellipsoidal => w_aspect
                    end)) in
  0 < Rad /\ 0 <= offset c <= Rad /\ get_aspect_ratio c <> 0.
Proof.
  intros (_ & HR & _ & (m & Hm & Hoff) & Har) c. subst c.
  cbn [offset get_aspect_ratio aspect_ratio].
  assert (Hm' : NLTrans_V.calculate_head_depth (head_type_name s) Rad 2
                = Ok m).
  { revert Hm. unfold max_offset. destruct s, e; cbn [head_location];
      eval_strings; intros Hm; exact Hm. }
  split; [lra |]. split.
  - destruct s.
    + apply hemispherical_depth in Hm'. lra.
    + apply ellipsoidal_depth in Hm'. destruct Hm' as [_ ->]. lra.
  - destruct s; lra.
Qed.

Lemma V_form_nozzle_resolves (Rad L support_height : R) (n : nozzle) :
  V_form_nozzle Rad L n ->
  exists g, NLTrans_V.transform_nozzle_loads n support_height Rad L = Ok g.
Proof.
  intros (loc & tag & we & wo & wt & wa & wP & w2 & w3 & Hb & ->).
  apply V_loads_of_position.
  pose proof Hb as (Hin & _).
  cbn [location_options In] in Hin.
  destruct Hin as [<- | [<- | [<- | [<- | [<- | []]]]]].
  - eexists. apply V_shell_position. reflexivity.
  - destruct (form_head_component Hemispherical Top _ _ _ _ wt _ Hb)
      as (HR & Hoff & Har).
    apply (V_head_position_resolves _ Hemispherical Top);
      [reflexivity | exact HR | exact Hoff | intros _; exact Har].
  - destruct (form_head_component Hemispherical Bottom _ _ _ _ wt _ Hb)
      as (HR & Hoff & Har).
    apply (V_head_position_resolves _ Hemispherical Bottom);
      [reflexivity | exact HR | exact Hoff | intros _; exact Har].
  - destruct (form_head_component Ellipsoidal Top _ _ _ _ wt _ Hb)
      as (HR & Hoff & Har).
    apply (V_head_position_resolves _ Ellipsoidal Top);
      [reflexivity | exact HR | exact Hoff | intros _; exact Har].
  - destruct (form_head_component Ellipsoidal Bottom _ _ _ _ wt _ Hb)
      as (HR & Hoff & Har).
    apply (V_head_position_resolves _ Ellipsoidal Bottom);
      [reflexivity | exact HR | exact Hoff | intros _; exact Har].
Qed.

Lemma DS_form_nozzle_resolves (Rad L support_height : R) (n : nozzle) :
  DS_form_nozzle Rad L n ->
  exists g, DS_NLTrans_F.transform_loads n support_height Rad L = Ok g.
Proof.
  intros (loc & we & wo & wt & wa & wP & w2 & w3 & Hb & ->).
  apply DS_loads_of_position.
  pose proof Hb as (Hin & _).
  cbn [location_options In] in Hin.
  destruct Hin as [<- | [<- | [<- | [<- | [<- | []]]]]].
  - eexists. apply DS_shell_position. reflexivity.
  - destruct (form_head_component Hemispherical Top _ _ _ _ wt _ Hb)
      as (HR & Hoff & Har).
    apply (DS_head_position_resolves _ Hemispherical Top);
      [reflexivity | exact HR | exact Hoff | intros _; exact Har].
  - destruct (form_head_component Hemispherical Bottom _ _ _ _ wt _ Hb)
      as (HR & Hoff & Har).
    apply (DS_head_position_resolves _ Hemispherical Bottom);
      [reflexivity | exact HR | exact Hoff | intros _; exact Har].
  - destruct (form_head_component Ellipsoidal Top _ _ _ _ wt _ Hb)
      as (HR & Hoff & Har).
    apply (DS_head_position_resolves _ Ellipsoidal Top);
      [reflexivity | exact HR | exact Hoff | intros _; exact Har].
  - destruct (form_head_component Ellipsoidal Bottom _ _ _ _ wt _ Hb)
      as (HR & Hoff & Har).
    apply (DS_head_position_resolves _ Ellipsoidal Bottom);
      [reflexivity | exact HR | exact Hoff | intros _; exact Har].
Qed.

Lemma all_resolve {X G : Type} (t : X -> result G) (xs : list X) :
  Forall (fun x => exists g, t x = Ok g) xs ->
  exists gs, Forall2 (fun x g => t x = Ok g) xs gs.
Proof.
  induction 1 as [| x xs [g Hg] _ [gs Hgs]].
  - exists []. constructor.
  - exists (g :: gs). constructor; assumption.
Qed.

(** X17: with every widget value within the bounds of the form of
    NLTrans_V.0sm.py (radius in [0.1, 10], offset up to the bound of the
    offset field, aspect ratio in [1.5, 4]) and pipe supports on the shell,
    the calculation of [main] never raises once there is at least one
    attachment, and it displays one row per attachment plus the ['TOTAL']
    row. *)
Theorem V_form_inputs_never_raise (ns : list nozzle) (ss : list support)
    (support_height Rad L : R) :
  Forall (V_form_nozzle Rad L) ns ->
  Forall (fun s => location (sp s) = "Shell") ss ->
  ns <> [] \/ ss <> [] ->
  exists rows,
    NLTrans_V.main_calculate ns ss support_height Rad L = Ok rows /\
    List.length rows = (List.length ns + List.length ss + 1)%nat.
Proof.
  intros Hn Hs Hne.
  destruct (all_resolve
              (fun n => NLTrans_V.transform_nozzle_loads n support_height
                          Rad L) ns) as [gns Hgn].
  { eapply Forall_impl; [| exact Hn].
    intros n Hf. apply (V_form_nozzle_resolves Rad L). exact Hf. }
  destruct (all_resolve
              (fun s => NLTrans_V.transform_support_loads s support_height
                          Rad L) ss) as [gss Hgs].
  { eapply Forall_impl; [| exact Hs].
    intros s Hloc. unfold NLTrans_V.transform_support_loads.
    rewrite (V_shell_position _ _ _ _ Hloc). cbn [bind].
    eexists. reflexivity. }
  eexists. split.
  - apply (V_main_rows ns ss gns gss support_height Rad L Hgn Hgs Hne).
  - cbv zeta. rewrite !length_app, !length_map, !length_combine.
    rewrite <- (Forall2_length Hgn), <- (Forall2_length Hgs).
    cbn [List.length]. lia.
Qed.

(** An ellipsoidal top-head nozzle as the form of either program builds it:
    radius 1, offset 0.5 (the bound of the field), aspect ratio 4. *)
Lemma sample_widgets_in_bounds :
  widgets_in_bounds "Ellipsoidal Top Head" 1 10 0 (1 / 2) 4.
Proof.
  unfold widgets_in_bounds. split; [cbn; tauto |].
  split; [lra |]. split; [lra |]. split; [| lra].
  exists (1 / 2). split; [| lra].
  unfold max_offset, NLTrans_V.calculate_head_depth. eval_strings.
  apply float_div_nonzero. lra.
Qed.

Lemma V_form_inputs_never_raise_witness :
  exists rows,
    NLTrans_V.main_calculate
      [V_nozzle_record "Ellipsoidal Top Head" "N-1" 0 (1 / 2) 30 4 100 10 20]
      [V_support_record "PS-1" 5 90 3 10 20 30] 0 1 10 = Ok rows /\
    List.length rows = 3%nat.
Proof.
  apply (V_form_inputs_never_raise
           [V_nozzle_record "Ellipsoidal Top Head" "N-1" 0 (1 / 2) 30 4
              100 10 20]
           [V_support_record "PS-1" 5 90 3 10 20 30] 0 1 10).
  - constructor; [| constructor].
    exists "Ellipsoidal Top Head", "N-1", 0, (1 / 2), 30, 4, 100, 10, 20.
    split; [exact sample_widgets_in_bounds | reflexivity].
  - constructor; [reflexivity | constructor].
  - left. discriminate.
Defined.

(** X18: with every widget value within the bounds of the form of
    DS_NLTrans_F.py, [main] never raises: every nozzle resolves and the six
    totals are returned. *)
Theorem DS_form_inputs_never_raise (ns : list nozzle)
    (support_height Rad L : R) :
  Forall (DS_form_nozzle Rad L) ns ->
  exists gs,
    Forall2 (fun n g =>
               DS_NLTrans_F.transform_loads n support_height Rad L = Ok g)
            ns gs /\
    DS_NLTrans_F.main_calculate ns support_height Rad L = Ok (sum_loads gs).
Proof.
  intros Hn.
  destruct (all_resolve
              (fun n => DS_NLTrans_F.transform_loads n support_height Rad L)
              ns) as [gs Hgs].
  { eapply Forall_impl; [| exact Hn].
    intros n Hf. apply (DS_form_nozzle_resolves Rad L). exact Hf. }
  exists gs. split; [exact Hgs |].
  unfold DS_NLTrans_F.main_calculate.
  rewrite (DS_main_loop_ok _ ns gs Hgs). reflexivity.
Qed.

Lemma DS_form_inputs_never_raise_witness :
  exists gs,
    Forall2 (fun n g => DS_NLTrans_F.transform_loads n 0 1 10 = Ok g)
            [DS_nozzle_record "Ellipsoidal Top Head" 0 (1 / 2) 30 4 100 10 20]
            gs /\
    DS_NLTrans_F.main_calculate
      [DS_nozzle_record "Ellipsoidal Top Head" 0 (1 / 2) 30 4 100 10 20]
      0 1 10 = Ok (sum_loads gs).
Proof.
  apply (DS_form_inputs_never_raise
           [DS_nozzle_record "Ellipsoidal Top Head" 0 (1 / 2) 30 4 100 10 20]
           0 1 10).
  constructor; [| constructor].
  exists "Ellipsoidal Top Head", 0, (1 / 2), 30, 4, 100, 10, 20.
  split; [exact sample_widgets_in_bounds | reflexivity].
Defined.

(** ** Which exception surfaces *)

Lemma for_each_first_failure {X G Y : Type} (t : X -> result G)
    (mk : X -> G -> Y) (xs1 xs2 : list X) (x : X) (gs : list G) (e : exn) :
  Forall2 (fun x g => t x = Ok g) xs1 gs ->
  t x = Raise e ->
  NLTrans_V.for_each (fun x => r <- t x ;; Ok (mk x r)) (xs1 ++ x :: xs2)
  = Raise e.
Proof.
  intros H Hx.
  induction H as [| y g ys gs Hy _ IH]; cbn [app NLTrans_V.for_each].
  - rewrite Hx. reflexivity.
  - rewrite Hy. cbn [bind]. rewrite IH. reflexivity.
Qed.

(** X19: the calculation stops at the first attachment that fails and
    reports its exception.  In NLTrans_V.0sm.py nozzles are processed
    before pipe supports, so a failing nozzle hides every pipe support; in
    DS_NLTrans_F.py the first failing nozzle decides. *)
Theorem first_failure_surfaces (support_height Rad L : R) (e : exn) :
  (forall ns1 n ns2 ss gs,
      Forall2 (fun n g =>
                 NLTrans_V.transform_nozzle_loads n support_height Rad L
                 = Ok g) ns1 gs ->
      NLTrans_V.transform_nozzle_loads n support_height Rad L = Raise e ->
      NLTrans_V.main_calculate (ns1 ++ n :: ns2) ss support_height Rad L
      = Raise e) /\
  (forall ns ss1 s ss2 gns gss,
      Forall2 (fun n g =>
                 NLTrans_V.transform_nozzle_loads n support_height Rad L
                 = Ok g) ns gns ->
      Forall2 (fun s g =>
                 NLTrans_V.transform_support_loads s support_height Rad L
                 = Ok g) ss1 gss ->
      NLTrans_V.transform_support_loads s support_height Rad L = Raise e ->
      NLTrans_V.main_calculate ns (ss1 ++ s :: ss2) support_height Rad L
      = Raise e) /\
  (forall ns1 n ns2 gs,
      Forall2 (fun n g =>
                 DS_NLTrans_F.transform_loads n support_height Rad L = Ok g)
              ns1 gs ->
      DS_NLTrans_F.transform_loads n support_height Rad L = Raise e ->
      DS_NLTrans_F.main_calculate (ns1 ++ n :: ns2) support_height Rad L
      = Raise e).
Proof.
  split; [| split].
  - intros ns1 n ns2 ss gs Hok Hn. unfold NLTrans_V.main_calculate.
    rewrite (for_each_first_failure _ _ ns1 ns2 n gs e Hok Hn).
    reflexivity.
  - intros ns ss1 s ss2 gns gss Hn Hok Hs. unfold NLTrans_V.main_calculate.
    rewrite (for_each_rows _ _ ns gns Hn). cbn [bind].
    rewrite (for_each_first_failure _ _ ss1 ss2 s gss e Hok Hs).
    reflexivity.
  - intros ns1 n ns2 gs Hok Hn. unfold DS_NLTrans_F.main_calculate.
    generalize (DS_NLTrans_F.zero_load 0).
    induction Hok as [| y g ys gs Hy _ IH]; intros acc;
      cbn [app DS_NLTrans_F.main_loop].
    + rewrite Hn. reflexivity.
    + rewrite Hy. cbn [bind]. apply IH.
Qed.

Lemma hemi_top_outside_raises :
  NLTrans_V.transform_nozzle_loads hemi_top_outside 0 1 10
  = Raise ValueError.
Proof.
  unfold NLTrans_V.transform_nozzle_loads, NLTrans_V.calculate_position,
    NLTrans_V.calculate_head_depth.
  cbn [hemi_top_outside nz location offset theta elevation].
  eval_strings. cbn [bind].
  destruct (Req_dec_T 2 0); [lra |].
  rewrite math_sqrt_neg by lra. reflexivity.
Qed.

Lemma first_failure_surfaces_witness :
  NLTrans_V.main_calculate
    ([scenario_nozzle] ++ hemi_top_outside :: [scenario_nozzle])
    [V_support_record "PS-1" 5 90 3 10 20 30] 0 1 10
  = Raise ValueError.
Proof.
  apply (proj1 (first_failure_surfaces 0 1 10 ValueError)
           [scenario_nozzle] hemi_top_outside [scenario_nozzle] _
           [mkLoad 0 0 (-100) (-500) 0 0]).
  - constructor; [exact V_scenario_loads | constructor].
  - exact hemi_top_outside_raises.
Defined.

(** ** Where the aspect ratio is used *)

(** X20: the aspect ratio is read on ellipsoidal heads only.  On the shell
    and on every location that contains ["Hemispherical"] the position
    does not depend on it, whatever its value (even 0 or missing); on any
    other location an aspect ratio of 0 raises [ZeroDivisionError].  In
    both variants. *)
Theorem aspect_ratio_only_on_ellipsoidal (c : component)
    (support_height Rad L : R) :
  (location c = "Shell" \/ str_in "Hemispherical" (location c) = true ->
   forall a,
     NLTrans_V.calculate_position (with_aspect_ratio a c)
       support_height Rad L
     = NLTrans_V.calculate_position c support_height Rad L /\
     DS_NLTrans_F.calculate_position (with_aspect_ratio a c)
       support_height Rad L
     = DS_NLTrans_F.calculate_position c support_height Rad L) /\
  (location c <> "Shell" ->
   str_in "Hemispherical" (location c) = false ->
   get_aspect_ratio c = 0 ->
   NLTrans_V.calculate_position c support_height Rad L
   = Raise ZeroDivisionError /\
   DS_NLTrans_F.calculate_position c support_height Rad L
   = Raise ZeroDivisionError).
Proof.
  split.
  - intros Hloc a.
    unfold NLTrans_V.calculate_position, DS_NLTrans_F.calculate_position,
      NLTrans_V.calculate_head_depth, DS_NLTrans_F.calculate_head_depth.
    cbv zeta.
    cbn [with_aspect_ratio location offset elevation theta].
    destruct Hloc as [Hshell | Hhemi].
    + rewrite Hshell. eval_strings. split; reflexivity.
    + rewrite Hhemi. eval_strings. split; reflexivity.
  - intros Hns Hhemi Har. apply not_shell_eqb in Hns.
    unfold NLTrans_V.calculate_position, DS_NLTrans_F.calculate_position,
      NLTrans_V.calculate_head_depth, DS_NLTrans_F.calculate_head_depth.
    cbv zeta. rewrite Hns, Hhemi, Har. eval_strings.
    rewrite float_div_zero. split; reflexivity.
Qed.

Lemma aspect_ratio_only_on_ellipsoidal_witness :
  NLTrans_V.calculate_position
    (with_aspect_ratio (Some 0) hemi_top_3_of_5) 0 5 0
  = NLTrans_V.calculate_position hemi_top_3_of_5 0 5 0 /\
  NLTrans_V.calculate_position
    (with_aspect_ratio (Some 0) ellip_top_apex) 0 1 10
  = Raise ZeroDivisionError.
Proof.
  split.
  - exact (proj1 (proj1 (aspect_ratio_only_on_ellipsoidal hemi_top_3_of_5
                           0 5 0) (or_intror eq_refl) (Some 0))).
  - assert (Hns : location (with_aspect_ratio (Some 0) ellip_top_apex)
                  <> "Shell") by (cbn; discriminate).
    exact (proj1 (proj2 (aspect_ratio_only_on_ellipsoidal
                           (with_aspect_ratio (Some 0) ellip_top_apex)
                           0 1 10) Hns eq_refl eq_refl)).
Defined.
